(** * dkg.py, [dkg/assets.py]: the content-asset lifecycle engine

    A shallow embedding of [ContentAsset] (create / update / get and their
    helpers) together with the properties of its specification.

    The ledger and the node network are external collaborators.  They are
    modelled as interfaces over an abstract world [W]; every request made
    through them is recorded, with its outcome, in a trace, so that the
    order and the arguments of the requests can be stated and proved. *)

From Stdlib Require Import Ascii String ZArith Lia.
From stdpp Require Import base option list strings pretty gmap.

Set Warnings "-register-all".
Local Open Scope string_scope.
Local Open Scope Z_scope.

(** ** Values *)

Definition HexStr := string.
Definition Address := string.
Definition UAL := string.
Definition NQuads := list string.
Definition bytes := list Byte.byte.

(** JSON-LD documents, as the Python dictionaries, lists and scalars they
    are. *)
Inductive JSON : Type :=
| JNull
| JBool (b : bool)
| JNum (n : Z)
| JStr (s : string)
| JList (l : list JSON)
| JObj (kvs : list (string * JSON)).

(** Python's truth value of an object: [None], [False], [0] and the empty
    string, list and dictionary are false. *)
Definition truthy (v : JSON) : bool :=
  match v with
  | JNull => false
  | JBool b => b
  | JNum n => negb (n =? 0)
  | JStr s => match s with EmptyString => false | _ => true end
  | JList l => match l with [] => false | _ => true end
  | JObj kvs => match kvs with [] => false | _ => true end
  end.

(** [content: dict[Literal['public', 'private'], JSONLD]]: only the two
    keys are ever read, and always through [content.get(key, None)]; an
    absent key is [None]. *)
Record Content := {
  public : option JSON;
  private : option JSON;
}.

(** [bool(content.get(key, None))] *)
Definition present (v : option JSON) : bool :=
  match v with
  | Some j => truthy j
  | None => false
  end.

Inductive ContentType := JSON_LD | N_Quads.

(** ** Exceptions and results *)

Inductive exn : Type :=
| ContractLogicError (msg : string)
| OperationNotFinished (msg : string)
| OperationFailed (msg : string)
| InvalidAsset (msg : string)
| ContentError (msg : string)
| KeyError (key : string)
| IndexError
| TypeError (msg : string)
| ZeroDivisionError
| OverflowError
| OtherError (name msg : string).

Inductive res (A : Type) : Type :=
| Ok (a : A)
| Raise (e : exn).
Arguments Ok {A} a.
Arguments Raise {A} e.

Definition is_Ok {A} (r : res A) : bool :=
  match r with Ok _ => true | Raise _ => false end.

Definition res_bind {A B} (r : res A) (k : A -> res B) : res B :=
  match r with
  | Ok a => k a
  | Raise e => Raise e
  end.

Notation "x <~ r ;; k" := (res_bind r (fun x => k))
  (at level 100, r at next level, right associativity).

(** ** [math.floor(a / b)] on Python integers

    [a / b] is true division: the quotient correctly rounded (to nearest,
    ties to even) to a binary64 float.  A float is kept as sign, integer
    significand and binary exponent. *)

Record pyfloat := {
  f_neg : bool;
  f_mant : Z;
  f_exp : Z;
}.

(** [n / d] rounded to the nearest integer, ties to even ([0 <= n], [0 < d]). *)
Definition div_rne (n d : Z) : Z :=
  let q := n / d in
  let r := n mod d in
  if 2 * r <? d then q
  else if d <? 2 * r then q + 1
  else if Z.even q then q else q + 1.

(** [d * 2^e <= n], for an exponent of either sign. *)
Definition scaled_le (d e n : Z) : bool :=
  if 0 <=? e then d * 2 ^ e <=? n else d <=? n * 2 ^ (- e).

(** The binary exponent of [n / d]: [2^e <= n / d < 2^(e+1)] for [0 < n],
    [0 < d]. *)
Definition quot_exponent (n d : Z) : Z :=
  let e0 := Z.log2 n - Z.log2 d in
  if scaled_le d e0 n then e0 else e0 - 1.

Definition truediv (a b : Z) : res pyfloat :=
  if b =? 0 then Raise ZeroDivisionError
  else if a =? 0 then Ok {| f_neg := b <? 0; f_mant := 0; f_exp := 0 |}
  else
    let n := Z.abs a in
    let d := Z.abs b in
    let neg := xorb (a <? 0) (b <? 0) in
    let p := Z.max (quot_exponent n d - 52) (-1074) in
    let m := if 0 <=? p then div_rne n (d * 2 ^ p)
             else div_rne (n * 2 ^ (- p)) d in
    if (0 <=? p) && (2 ^ 1024 <=? m * 2 ^ p) then Raise OverflowError
    else Ok {| f_neg := neg; f_mant := m; f_exp := p |}.

Definition math_floor (x : pyfloat) : Z :=
  let m := f_mant x in
  let p := f_exp x in
  if 0 <=? p then (if f_neg x then - (m * 2 ^ p) else m * 2 ^ p)
  else if f_neg x then - ((m + 2 ^ (- p) - 1) / 2 ^ (- p))
  else m / 2 ^ (- p).

(** ** Data exchanged with the collaborators *)

Record AssertionMetadata := {
  size : Z;
  triples_number : Z;
  chunks_number : Z;
}.

Record ParsedUAL := {
  blockchain : string;
  contract_address : Address;
  token_id : Z;
}.

(** The ledger's agreement tuple, [AgreementData]. *)
Record AgreementData := {
  startTime : Z;
  epochsNumber : Z;
  epochLength : Z;
  tokensInfo : list Z;
}.

Record Block := { timestamp : Z }.

Definition TxReceipt := JSON.

Record EventData := { args : gmap string Z }.

(** The argument of the mint transaction. *)
Record CreateArgs := {
  ca_assertionId : bytes;
  ca_size : Z;
  ca_triplesNumber : Z;
  ca_chunksNumber : Z;
  ca_tokenAmount : Z;
  ca_epochsNumber : Z;
  ca_scoreFunctionId : Z;
  ca_immutable_ : bool;
}.

(** The keyword arguments of the update-asset-state transaction. *)
Record UpdateArgs := {
  ua_token_id : Z;
  ua_assertion_id : HexStr;
  ua_size : Z;
  ua_triples_number : Z;
  ua_chunks_number : Z;
  ua_update_token_amount : Z;
}.

Inductive StoreTypes := TRIPLE | PENDING.

(** One element of the list handed to the local-store operation. *)
Record StoreEntry := {
  se_blockchain : string;
  se_contract : Address;
  se_tokenId : Z;
  se_assertionId : HexStr;
  se_assertion : NQuads;
  se_storeType : StoreTypes;
}.

Record BidSuggestionArgs := {
  bs_blockchain : string;
  bs_epochs_number : Z;
  bs_size : Z;
  bs_contract : Address;
  bs_assertion_id : HexStr;
  bs_hash_function_id : Z;
}.

(** The arguments shared by the publish and update node operations. *)
Record AssertionArgs := {
  aa_assertion_id : HexStr;
  aa_assertion : NQuads;
  aa_blockchain : string;
  aa_contract : Address;
  aa_token_id : Z;
  aa_hash_function_id : Z;
}.

(** Node responses.  [bidSuggestion] holds [int(response['bidSuggestion'])]. *)
Record BidSuggestion := { bidSuggestion : Z }.
Record OperationId := { operationId : string }.

Inductive OperationStatus := Pending | Completed | Failed.

Record OperationData := {
  assertion : option NQuads;
  errorMessage : string;
}.

Record OperationResult := {
  status : OperationStatus;
  data : option OperationData;
}.

(** ** The trace of requests *)

Inductive event : Type :=
| EvChainId (o : res Z)
| EvGetContractAddress (name : string) (o : res Address)
| EvGetAssetStorageAddress (name : string) (o : res Address)
| EvIncreaseAllowance (spender : Address) (amount : Z) (o : res unit)
| EvDecreaseAllowance (spender : Address) (amount : Z) (o : res unit)
| EvCreateAsset (a : CreateArgs) (o : res TxReceipt)
| EvGetBlock (tag : string) (o : res Block)
| EvGetServiceAgreementData (agreement_id : HexStr) (o : res AgreementData)
| EvUpdateAssetState (a : UpdateArgs) (o : res unit)
| EvGetLatestAssertionId (token : Z) (o : res bytes)
| EvGetAssertionIdByIndex (token : Z) (index : Z) (o : res HexStr)
| EvOwnerOf (token : Z) (o : res Address)
| EvBidSuggestion (a : BidSuggestionArgs) (o : res BidSuggestion)
| EvLocalStore (l : list StoreEntry) (o : res OperationId)
| EvPublish (a : AssertionArgs) (o : res OperationId)
| EvUpdate (a : AssertionArgs) (o : res OperationId)
| EvGet (ual : UAL) (hashFunctionId : Z) (o : res OperationId)
| EvGetOperationResult (operation_id operation : string) (o : res OperationResult)
| EvSleep (delay : Z).

(** ** The collaborators *)

(** The ledger requests of [dkg.utils.blockchain_request]. *)
Module BlockchainRequest.
Class t (W : Type) := {
  chain_id : W -> res Z * W;
  get_contract_address : string -> W -> res Address * W;
  get_asset_storage_address : string -> W -> res Address * W;
  increase_allowance : Address -> Z -> W -> res unit * W;
  decrease_allowance : Address -> Z -> W -> res unit * W;
  create_asset : CreateArgs -> W -> res TxReceipt * W;
  get_block : string -> W -> res Block * W;
  get_service_agreement_data : HexStr -> W -> res AgreementData * W;
  update_asset_state : UpdateArgs -> W -> res unit * W;
  get_latest_assertion_id : Z -> W -> res bytes * W;
  get_assertion_id_by_index : Z -> Z -> W -> res HexStr * W;
  owner_of : Z -> W -> res Address * W;
}.
End BlockchainRequest.

(** The node requests of [dkg.utils.node_request]. *)
Module NodeRequest.
Class t (W : Type) := {
  bid_suggestion : BidSuggestionArgs -> W -> res BidSuggestion * W;
  local_store : list StoreEntry -> W -> res OperationId * W;
  publish : AssertionArgs -> W -> res OperationId * W;
  update : AssertionArgs -> W -> res OperationId * W;
  get : UAL -> Z -> W -> res OperationId * W;
  get_operation_result : string -> string -> W -> res OperationResult * W;
}.
End NodeRequest.

(** [time.sleep]: what the passing of [delay] time units does to the
    world. *)
Class Clock (W : Type) := { sleep : Z -> W -> W }.

(** [manager.blockchain_provider]: its table of networks and its decoder
    of receipt logs. *)
Class BlockchainProvider := {
  SUPPORTED_NETWORKS : gmap Z string;
  decode_logs_event : TxReceipt -> string -> string -> res (list EventData);
}.

(** The pure helpers that [assets.py] imports: [pyld], [web3] and the
    modules under [dkg.utils].  [jsonld_normalize] is the canonicalization
    algorithm, a black box that is either rejected ([None]) or yields the
    ordered statements of its input. *)
Class Utils := {
  jsonld_normalize : JSON -> ContentType -> option NQuads;
  jsonld_from_rdf : string -> res JSON;
  hash_assertion_with_indexes : NQuads -> list HexStr;
  MerkleTree_root : list HexStr -> bool -> HexStr;
  generate_assertion_metadata : NQuads -> AssertionMetadata;
  generate_keyword : Address -> HexStr -> HexStr;
  generate_agreement_id : Address -> Z -> HexStr -> HexStr;
  parse_ual : UAL -> res ParsedUAL;
  format_ual : string -> Address -> Z -> UAL;
  Web3_to_bytes : HexStr -> bytes;
  Web3_to_hex : bytes -> HexStr;
}.

(** ** The monad of the engine: state (world and trace) and exceptions *)

Section Monad.
Context {W : Type}.

Record state := { world : W; trace : list event }.

Definition M (A : Type) : Type := state -> res A * state.

Definition ret {A} (a : A) : M A := fun s => (Ok a, s).

Definition raise {A} (e : exn) : M A := fun s => (Raise e, s).

Definition bind {A B} (m : M A) (k : A -> M B) : M B :=
  fun s =>
    match m s with
    | (Ok a, s') => k a s'
    | (Raise e, s') => (Raise e, s')
    end.

(** [try: m  except ... as err: h err] *)
Definition try_except {A} (m : M A) (h : exn -> M A) : M A :=
  fun s =>
    match m s with
    | (Ok a, s') => (Ok a, s')
    | (Raise e, s') => h e s'
    end.

(** A pure computation that may raise. *)
Definition lift {A} (r : res A) : M A := fun s => (r, s).

(** A request to a collaborator: the world answers and moves on, and
    the request is appended to the trace with its outcome. *)
Definition invoke {T} (h : W -> res T * W) (ev : res T -> event) : M T :=
  fun s =>
    let '(o, w) := h (world s) in
    (o, {| world := w; trace := (trace s ++ [ev o])%list |}).

(** A top-level call starts with an empty trace. *)
Definition run {A} (m : M A) (w : W) : res A * state :=
  m {| world := w; trace := [] |}.
End Monad.
Arguments state W : clear implicits.
Arguments M W A : clear implicits.

Notation "x <- m ;; k" := (bind m (fun x => k))
  (at level 100, m at next level, right associativity).
Notation "m ;; k" := (bind m (fun _ => k))
  (at level 100, right associativity).

(** ** What the operations return *)

Record PublicAssertion := {
  pub_id : HexStr;
  pub_content : NQuads;
  pub_metadata : AssertionMetadata;
}.

Record PrivateAssertion := {
  priv_id : HexStr;
  priv_content : NQuads;
}.

(** The dictionary built by [_process_content]; its ["private"] entry is
    the empty dictionary ([None] here) when there is no private part. *)
Record Assertions := {
  a_public : PublicAssertion;
  a_private : option PrivateAssertion;
}.

Record OperationInfo := {
  oi_operationId : string;
  oi_status : OperationStatus;
}.

Record AssetResult := {
  r_UAL : UAL;
  r_publicAssertionId : HexStr;
  r_operation : OperationInfo;
}.

Record GetResult := {
  g_assertionId : HexStr;
  g_assertion : JSON;
  g_operation : OperationInfo;
}.

Definition newline : string := String "010"%char "".

(** ** [class ContentAsset] *)

Module ContentAsset.
Section ContentAsset.
Context {W : Type}.
Context {ledger : BlockchainRequest.t W} {node : NodeRequest.t W}.
Context {clock : Clock W}.
Context {provider : BlockchainProvider} {utils : Utils}.

Definition HASH_FUNCTION_ID : Z := 1.
Definition SCORE_FUNCTION_ID : Z := 1.
Definition PRIVATE_ASSERTION_PREDICATE : string :=
  "https://ontology.origintrail.io/dkg/1.0#privateAssertionID".

(** The [Method(...)] attributes: each issues one request. *)
Definition _chain_id : M W Z :=
  invoke BlockchainRequest.chain_id EvChainId.
Definition _get_contract_address (name : string) : M W Address :=
  invoke (BlockchainRequest.get_contract_address name)
         (EvGetContractAddress name).
Definition _get_asset_storage_address (name : string) : M W Address :=
  invoke (BlockchainRequest.get_asset_storage_address name)
         (EvGetAssetStorageAddress name).
Definition _increase_allowance (spender : Address) (amount : Z) : M W unit :=
  invoke (BlockchainRequest.increase_allowance spender amount)
         (EvIncreaseAllowance spender amount).
Definition _decrease_allowance (spender : Address) (amount : Z) : M W unit :=
  invoke (BlockchainRequest.decrease_allowance spender amount)
         (EvDecreaseAllowance spender amount).
Definition _create (a : CreateArgs) : M W TxReceipt :=
  invoke (BlockchainRequest.create_asset a) (EvCreateAsset a).
Definition _get_block (tag : string) : M W Block :=
  invoke (BlockchainRequest.get_block tag) (EvGetBlock tag).
Definition _get_service_agreement_data (agreement_id : HexStr)
  : M W AgreementData :=
  invoke (BlockchainRequest.get_service_agreement_data agreement_id)
         (EvGetServiceAgreementData agreement_id).
Definition _update_asset_state (a : UpdateArgs) : M W unit :=
  invoke (BlockchainRequest.update_asset_state a) (EvUpdateAssetState a).
Definition _get_latest_assertion_id (token : Z) : M W bytes :=
  invoke (BlockchainRequest.get_latest_assertion_id token)
         (EvGetLatestAssertionId token).
Definition _get_assertion_id_by_index (token index : Z) : M W HexStr :=
  invoke (BlockchainRequest.get_assertion_id_by_index token index)
         (EvGetAssertionIdByIndex token index).
Definition _owner (token : Z) : M W Address :=
  invoke (BlockchainRequest.owner_of token) (EvOwnerOf token).

Definition _get_bid_suggestion (a : BidSuggestionArgs) : M W BidSuggestion :=
  invoke (NodeRequest.bid_suggestion a) (EvBidSuggestion a).
Definition _local_store (l : list StoreEntry) : M W OperationId :=
  invoke (NodeRequest.local_store l) (EvLocalStore l).
Definition _publish (a : AssertionArgs) : M W OperationId :=
  invoke (NodeRequest.publish a) (EvPublish a).
Definition _update (a : AssertionArgs) : M W OperationId :=
  invoke (NodeRequest.update a) (EvUpdate a).
Definition _get (ual : UAL) (hashFunctionId : Z) : M W OperationId :=
  invoke (NodeRequest.get ual hashFunctionId) (EvGet ual hashFunctionId).
Definition _get_operation_result (operation_id operation : string)
  : M W OperationResult :=
  invoke (NodeRequest.get_operation_result operation_id operation)
         (EvGetOperationResult operation_id operation).

(** [time.sleep(delay)] *)
Definition time_sleep (delay : Z) : M W unit :=
  fun s => (Ok tt, {| world := sleep delay (world s);
                      trace := (trace s ++ [EvSleep delay])%list |}).

(** *** Helpers of the repository that are not among the sources *)

(** Modelled from the spec: [normalize_dataset] of [dkg.utils.rdf], which
    is not among the sources.  It canonicalizes a dataset or graph into
    the ordered sequence of its statements; input that the canonicalizer
    rejects, and content from which no statement comes out, fail with a
    ContentError. *)
Definition normalize_dataset (dataset : JSON) (type : ContentType)
  : res NQuads :=
  match jsonld_normalize dataset type with
  | None => Raise (ContentError "rejected by the canonicalizer")
  | Some [] => Raise (ContentError "no statements")
  | Some quads => Ok quads
  end.

(** Modelled from the spec: [validate_operation_status] of
    [dkg.utils.node_request], which is not among the sources.  A Pending
    response raises the retryable not-finished condition, a Completed
    one passes, a Failed one raises the terminal failure with the
    reported detail. *)
Definition validate_operation_status (operation_result : OperationResult)
  : res unit :=
  match status operation_result with
  | Pending => Raise (OperationNotFinished "Operation isn't finished")
  | Completed => Ok tt
  | Failed =>
      Raise (OperationFailed
               (match data operation_result with
                | Some d => errorMessage d
                | None => ""
                end))
  end.

(** Modelled from the spec: the [retry] decorator of
    [dkg.utils.decorators], which is not among the sources.  At most
    [max_retries] attempts are made; before attempt [n] it waits
    [base_delay * backoff^(n-1)]; an attempt that returns ends the loop
    with its value; only exceptions accepted by [catch] are retried, any
    other propagates at once; when the attempts are used up an
    OperationNotFinishedError is raised. *)
Fixpoint retry {A} (catch : exn -> bool) (max_retries : nat)
    (base_delay backoff : Z) (func : M W A) : M W A :=
  match max_retries with
  | O => raise (OperationNotFinished "retries exhausted")
  | S n =>
      time_sleep base_delay ;;
      try_except func
        (fun err =>
           if catch err
           then retry catch n (base_delay * backoff) backoff func
           else raise err)
  end.

Definition catch_OperationNotFinished (e : exn) : bool :=
  match e with OperationNotFinished _ => true | _ => false end.

(** [MerkleTree(hash_assertion_with_indexes(quads), sort_pairs=True).root] *)
Definition merkle_root (quads : NQuads) : HexStr :=
  MerkleTree_root (hash_assertion_with_indexes quads) true.

(** *** [_process_content] *)

(** [content.get(key, None)] when it is true, for the [if] that guards on
    it. *)
Definition given (v : option JSON) : option JSON :=
  match v with
  | Some j => if truthy j then Some j else None
  | None => None
  end.

Definition _process_content (content : Content) (type : ContentType)
  : res Assertions :=
  let public_graph : list JSON :=
    match given (public content) with
    | Some p => [p]
    | None => []
    end in
  private_part <~
    match given (private content) with
    | Some p =>
        private_assertion <~ normalize_dataset p type ;;
        let private_assertion_id := merkle_root private_assertion in
        Ok (Some {| priv_id := private_assertion_id;
                    priv_content := private_assertion |})
    | None => Ok None
    end ;;
  let public_graph :=
    match private_part with
    | Some pa =>
        (public_graph ++
           [JObj [(PRIVATE_ASSERTION_PREDICATE, JStr (priv_id pa))]])%list
    | None => public_graph
    end in
  public_assertion <~
    normalize_dataset (JObj [("@graph", JList public_graph)]) type ;;
  let public_assertion_id := merkle_root public_assertion in
  let public_assertion_metadata :=
    generate_assertion_metadata public_assertion in
  Ok {| a_public := {| pub_id := public_assertion_id;
                       pub_content := public_assertion;
                       pub_metadata := public_assertion_metadata |};
        a_private := private_part |}.

(** *** [get_agreement_id] and [get_operation_result] *)

Definition get_agreement_id (contract_address : Address) (token_id : Z)
  : M W HexStr :=
  first_assertion_id <- _get_assertion_id_by_index token_id 0 ;;
  let keyword := generate_keyword contract_address first_assertion_id in
  ret (generate_agreement_id contract_address token_id keyword).

Definition get_operation_result (operation_id operation : string)
  : M W OperationResult :=
  retry catch_OperationNotFinished 5 1 2
    (operation_result <- _get_operation_result operation_id operation ;;
     lift (validate_operation_status operation_result) ;;
     ret operation_result).

(** *** [create] *)

(** [assertions["private"][key]]: the entry is the empty dictionary when
    there is no private part. *)
Definition getitem_private (assertions : Assertions) (key : string)
  : res PrivateAssertion :=
  match a_private assertions with
  | Some pa => Ok pa
  | None => Raise (KeyError key)
  end.

(** [SUPPORTED_NETWORKS[chain]] *)
Definition getitem_SUPPORTED_NETWORKS (chain : Z) : res string :=
  match SUPPORTED_NETWORKS !! chain with
  | Some name => Ok name
  | None => Raise (KeyError "chain id")
  end.

(** [events[0].args['tokenId']] *)
Definition minted_token_id (events : list EventData) : res Z :=
  match events !! 0%nat with
  | None => Raise IndexError
  | Some ev =>
      match args ev !! "tokenId" with
      | Some token_id => Ok token_id
      | None => Raise (KeyError "tokenId")
      end
  end.

(** The list handed to the local-store operation by [create] and
    [update], which differ in the store type only. *)
Definition assertions_list (content : Content) (assertions : Assertions)
    (chain_name : string) (content_asset_storage_address : Address)
    (token_id : Z) (store_type : StoreTypes) : res (list StoreEntry) :=
  let assertions_list :=
    [{| se_blockchain := chain_name;
        se_contract := content_asset_storage_address;
        se_tokenId := token_id;
        se_assertionId := pub_id (a_public assertions);
        se_assertion := pub_content (a_public assertions);
        se_storeType := store_type |}] in
  match given (private content) with
  | Some _ =>
      pa_id <~ getitem_private assertions "id" ;;
      pa_content <~ getitem_private assertions "content" ;;
      Ok (assertions_list ++
            [{| se_blockchain := chain_name;
                se_contract := content_asset_storage_address;
                se_tokenId := token_id;
                se_assertionId := priv_id pa_id;
                se_assertion := priv_content pa_content;
                se_storeType := store_type |}])%list
  | None => Ok assertions_list
  end.

(** [token_amount] is [None] when the caller leaves it out.  The
    [str(...)] around the service-agreement address and the conversion of
    the assertion id to bytes, which is total on the hexadecimal Merkle
    root, add no request and no exception of their own. *)
Definition create (content : Content) (epochs_number : Z)
    (token_amount : option Z) (immutable : bool)
    (content_type : ContentType) : M W AssetResult :=
  assertions <- lift (_process_content content content_type) ;;
  let pa := a_public assertions in
  chain <- _chain_id ;;
  chain_name <- lift (getitem_SUPPORTED_NETWORKS chain) ;;
  content_asset_storage_address <-
    _get_asset_storage_address "ContentAssetStorage" ;;
  token_amount <-
    match token_amount with
    | None =>
        bid <- _get_bid_suggestion
                 {| bs_blockchain := chain_name;
                    bs_epochs_number := epochs_number;
                    bs_size := size (pub_metadata pa);
                    bs_contract := content_asset_storage_address;
                    bs_assertion_id := pub_id pa;
                    bs_hash_function_id := HASH_FUNCTION_ID |} ;;
        ret (bidSuggestion bid)
    | Some amount => ret amount
    end ;;
  service_agreement_v1_address <-
    _get_contract_address "ServiceAgreementV1" ;;
  _increase_allowance service_agreement_v1_address token_amount ;;
  receipt <-
    try_except
      (_create {| ca_assertionId := Web3_to_bytes (pub_id pa);
                  ca_size := size (pub_metadata pa);
                  ca_triplesNumber := triples_number (pub_metadata pa);
                  ca_chunksNumber := chunks_number (pub_metadata pa);
                  ca_tokenAmount := token_amount;
                  ca_epochsNumber := epochs_number;
                  ca_scoreFunctionId := SCORE_FUNCTION_ID;
                  ca_immutable_ := immutable |})
      (fun err =>
         match err with
         | ContractLogicError _ =>
             _decrease_allowance service_agreement_v1_address
               token_amount ;;
             raise err
         | _ => raise err
         end) ;;
  events <- lift (decode_logs_event receipt "ContentAsset" "AssetMinted") ;;
  token_id <- lift (minted_token_id events) ;;
  assertions_list <-
    lift (assertions_list content assertions chain_name
            content_asset_storage_address token_id TRIPLE) ;;
  stored <- _local_store assertions_list ;;
  get_operation_result (operationId stored) "local-store" ;;
  published <- _publish {| aa_assertion_id := pub_id pa;
                           aa_assertion := pub_content pa;
                           aa_blockchain := chain_name;
                           aa_contract := content_asset_storage_address;
                           aa_token_id := token_id;
                           aa_hash_function_id := HASH_FUNCTION_ID |} ;;
  let operation_id := operationId published in
  operation_result <- get_operation_result operation_id "publish" ;;
  ret {| r_UAL := format_ual chain_name content_asset_storage_address
                    token_id;
         r_publicAssertionId := pub_id pa;
         r_operation := {| oi_operationId := operation_id;
                           oi_status := status operation_result |} |}.

(** *** [update] *)

(** [agreement_data.tokensInfo[0]] *)
Definition getitem_tokensInfo_0 (agreement_data : AgreementData) : res Z :=
  match tokensInfo agreement_data !! 0%nat with
  | Some amount => Ok amount
  | None => Raise IndexError
  end.

(** [math.floor(x / y)] is [math_floor] of [truediv]: a division by zero
    raises before the bid is asked for. *)
Definition update (ual : UAL) (content : Content) (token_amount : option Z)
    (content_type : ContentType) : M W AssetResult :=
  parsed_ual <- lift (parse_ual ual) ;;
  let content_asset_storage_address := contract_address parsed_ual in
  let token_id := token_id parsed_ual in
  assertions <- lift (_process_content content content_type) ;;
  let pa := a_public assertions in
  chain <- _chain_id ;;
  chain_name <- lift (getitem_SUPPORTED_NETWORKS chain) ;;
  token_amount <-
    match token_amount with
    | None =>
        agreement_id <-
          get_agreement_id content_asset_storage_address token_id ;;
        agreement_data <- _get_service_agreement_data agreement_id ;;
        block <- _get_block "latest" ;;
        let timestamp_now := timestamp block in
        quotient <-
          lift (truediv (timestamp_now - startTime agreement_data)
                  (epochLength agreement_data)) ;;
        let current_epoch := math_floor quotient in
        let epochs_left := epochsNumber agreement_data - current_epoch in
        bid <- _get_bid_suggestion
                 {| bs_blockchain := chain_name;
                    bs_epochs_number := epochs_left;
                    bs_size := size (pub_metadata pa);
                    bs_contract := content_asset_storage_address;
                    bs_assertion_id := pub_id pa;
                    bs_hash_function_id := HASH_FUNCTION_ID |} ;;
        let token_amount := bidSuggestion bid in
        escrowed <- lift (getitem_tokensInfo_0 agreement_data) ;;
        let token_amount := token_amount - escrowed in
        ret (if 0 <? token_amount then token_amount else 0)
    | Some amount => ret amount
    end ;;
  _update_asset_state
    {| ua_token_id := token_id;
       ua_assertion_id := pub_id pa;
       ua_size := size (pub_metadata pa);
       ua_triples_number := triples_number (pub_metadata pa);
       ua_chunks_number := chunks_number (pub_metadata pa);
       ua_update_token_amount := token_amount |} ;;
  assertions_list <-
    lift (assertions_list content assertions chain_name
            content_asset_storage_address token_id PENDING) ;;
  stored <- _local_store assertions_list ;;
  get_operation_result (operationId stored) "local-store" ;;
  updated <- _update {| aa_assertion_id := pub_id pa;
                        aa_assertion := pub_content pa;
                        aa_blockchain := chain_name;
                        aa_contract := content_asset_storage_address;
                        aa_token_id := token_id;
                        aa_hash_function_id := HASH_FUNCTION_ID |} ;;
  let operation_id := operationId updated in
  operation_result <- get_operation_result operation_id "update" ;;
  ret {| r_UAL := format_ual chain_name content_asset_storage_address
                    token_id;
         r_publicAssertionId := pub_id pa;
         r_operation := {| oi_operationId := operation_id;
                           oi_status := status operation_result |} |}.

(** *** [get] *)

(** [operation_result[key]] on what the polling function returned:
    subscripting [None] is a TypeError. *)
Definition getitem (operation_result : option OperationResult)
  : res OperationResult :=
  match operation_result with
  | Some r => Ok r
  | None => Raise (TypeError "'NoneType' object is not subscriptable")
  end.

(** [operation_result['data']['assertion']] *)
Definition getitem_data_assertion
    (operation_result : option OperationResult) : res NQuads :=
  r <~ getitem operation_result ;;
  match data r with
  | None => Raise (KeyError "data")
  | Some d =>
      match assertion d with
      | Some quads => Ok quads
      | None => Raise (KeyError "assertion")
      end
  end.

Definition get (ual : UAL) (validate : bool) : M W GetResult :=
  submitted <- _get ual 1 ;;
  let operation_id := operationId submitted in
  (* the nested function: it validates the status and falls off its end,
     so that what it returns is [None] *)
  let get_operation_result : M W (option OperationResult) :=
    retry catch_OperationNotFinished 5 1 2
      (operation_result <- _get_operation_result operation_id "get" ;;
       lift (validate_operation_status operation_result) ;;
       ret None) in
  operation_result <- get_operation_result ;;
  assertion <- lift (getitem_data_assertion operation_result) ;;
  parsed_ual <- lift (parse_ual ual) ;;
  let token_id := token_id parsed_ual in
  latest <- _get_latest_assertion_id token_id ;;
  let latest_assertion_id := Web3_to_hex latest in
  (if validate
   then
     let root := merkle_root assertion in
     if String.eqb root latest_assertion_id
     then ret tt
     else raise (InvalidAsset ("Latest assertionId: " +:+ latest_assertion_id
                               +:+ ". Merkle Tree Root: " +:+ root))
   else ret tt) ;;
  assertion_json_ld <-
    lift (jsonld_from_rdf (String.concat newline assertion)) ;;
  final <- lift (getitem operation_result) ;;
  ret {| g_assertionId := latest_assertion_id;
         g_assertion := assertion_json_ld;
         g_operation := {| oi_operationId := operation_id;
                           oi_status := status final |} |}.

(** *** [owner] *)

Definition owner (token_id : Z) : M W Address := _owner token_id.
End ContentAsset.
End ContentAsset.

Import ContentAsset.

(** ** Reasoning about runs: postconditions over result and new events *)

(** [wp m Q]: from every state, [m] extends the trace by some events [t]
    and its result [r] and [t] satisfy [Q]. *)
Definition wp {W A} (m : M W A) (Q : res A -> list event -> Prop) : Prop :=
  forall s, exists t, trace (m s).2 = (trace s ++ t)%list /\ Q (m s).1 t.

(** The postcondition "every new event satisfies [P]". *)
Definition only {A} (P : event -> Prop) : res A -> list event -> Prop :=
  fun _ t => Forall P t.

(** The events of a poll loop: waits and result requests. *)
Definition is_poll (operation_id operation : string) (e : event) : Prop :=
  match e with
  | EvSleep _ => True
  | EvGetOperationResult i o _ => i = operation_id /\ o = operation
  | _ => False
  end.

(** The waits of a trace, in order. *)
Fixpoint delays (t : list event) : list Z :=
  match t with
  | [] => []
  | EvSleep d :: t' => d :: delays t'
  | _ :: t' => delays t'
  end.

(** The outcomes of the result requests of a trace, in order. *)
Fixpoint polls (t : list event) : list (res OperationResult) :=
  match t with
  | [] => []
  | EvGetOperationResult _ _ o :: t' => o :: polls t'
  | _ :: t' => polls t'
  end.

(** A poll that leaves the operation unfinished: a Pending response, or
    the not-finished condition raised by the request itself. *)
Definition unfinished (o : res OperationResult) : bool :=
  match o with
  | Ok r => match status r with Pending => true | _ => false end
  | Raise e => catch_OperationNotFinished e
  end.

Section Postconditions.
Context {utils : Utils}.



Definition store_entry (chain_name : string) (storage : Address) (token : Z)
    (store_type : StoreTypes) (id : HexStr) (quads : NQuads) : StoreEntry :=
  {| se_blockchain := chain_name;
     se_contract := storage;
     se_tokenId := token;
     se_assertionId := id;
     se_assertion := quads;
     se_storeType := store_type |}.

(** Every local-store request carries the public assertion of the content
    and, exactly when the content has a private part, its private
    assertion after it, each under the store type [store_type]. *)
Definition stores_as (store_type : StoreTypes) (content : Content)
    (type : ContentType) (e : event) : Prop :=
  match e with
  | EvLocalStore l _ =>
      exists assertions chain_name storage token,
        _process_content content type = Ok assertions /\
        let entry := store_entry chain_name storage token store_type in
        let pa := a_public assertions in
        match a_private assertions with
        | Some pr =>
            present (private content) = true /\
            l = [entry (pub_id pa) (pub_content pa);
                 entry (priv_id pr) (priv_content pr)]
        | None =>
            present (private content) = false /\
            l = [entry (pub_id pa) (pub_content pa)]
        end
  | _ => True
  end.

(** The list that a local-store request holds for processed content:
    the public assertion and, when there is one, the private assertion
    after it, each for the given chain, contract and token and under the
    store type [store_type]. *)
Definition store_list (store_type : StoreTypes) (chain_name : string)
    (storage : Address) (token : Z) (assertions : Assertions)
  : list StoreEntry :=
  let entry := store_entry chain_name storage token store_type in
  entry (pub_id (a_public assertions)) (pub_content (a_public assertions))
  :: match a_private assertions with
     | Some pr => [entry (priv_id pr) (priv_content pr)]
     | None => []
     end.

(** What [n] attempts of a poll loop produce, starting with the delay
    [d]: a wait and a request per attempt; an unfinished poll goes on to
    the next attempt with the delay multiplied by [b]; any other poll ends
    the loop with the exception of the attempt or, for a Completed
    response [x], with the value [f x] that the polling function returns;
    with no attempt left the loop raises. *)
Fixpoint polled {A} (f : OperationResult -> A)
    (operation_id operation : string) (n : nat) (d b : Z)
    (r : res A) (t : list event) : Prop :=
  match n with
  | O => r = Raise (OperationNotFinished "retries exhausted") /\ t = []
  | S k =>
      exists o t',
        t = EvSleep d :: EvGetOperationResult operation_id operation o :: t' /\
        if unfinished o
        then polled f operation_id operation k (d * b) b r t'
        else t' = [] /\
             r = (x <~ o ;; _ <~ validate_operation_status x ;; Ok (f x))
  end.

(** The trace of successive attempts: before each request, its delay. *)
Fixpoint attempts (operation_id operation : string) (ds : list Z)
    (os : list (res OperationResult)) : list event :=
  match ds, os with
  | d :: ds', o :: os' =>
      EvSleep d :: EvGetOperationResult operation_id operation o
        :: attempts operation_id operation ds' os'
  | _, _ => []
  end.

Definition pending (o : res OperationResult) : Prop :=
  exists resp, o = Ok resp /\ status resp = Pending.

Definition is_ContractLogicError (e : exn) : bool :=
  match e with ContractLogicError _ => true | _ => false end.

Definition is_decrease (e : event) : bool :=
  match e with EvDecreaseAllowance _ _ _ => true | _ => false end.

(** The requests that follow the mint in [create]: the local store, the
    publish, and their poll loops. *)
Definition store_and_publish (e : event) : Prop :=
  match e with
  | EvLocalStore _ _ | EvPublish _ _ | EvSleep _
  | EvGetOperationResult _ _ _ => True
  | _ => False
  end.

(** The rollback of [create]: when the trace holds a mint rejected by the
    contract, it ends with the allowance increase, the rejected mint and a
    decrease of the allowance of the same spender by the same amount, which
    is the token amount of the mint; the spender is the address obtained
    for the service-agreement contract; when the decrease has gone through,
    the rejection of the mint is what the caller gets. *)
Definition rolls_back (r : res AssetResult) (t : list event) : Prop :=
  forall a msg,
    In (EvCreateAsset a (Raise (ContractLogicError msg))) t ->
    exists pre spender o,
      t = (pre ++
           [EvIncreaseAllowance spender (ca_tokenAmount a) (Ok tt);
            EvCreateAsset a (Raise (ContractLogicError msg));
            EvDecreaseAllowance spender (ca_tokenAmount a) o])%list /\
      In (EvGetContractAddress "ServiceAgreementV1" (Ok spender)) pre /\
      (o = Ok tt -> r = Raise (ContractLogicError msg)).

(** The decrease of the allowance in [create] is for the contract's
    rejection only: a decrease is requested only in a run whose mint was
    rejected by the contract; a mint that fails in any other way is the
    last request of the run, right after the allowance increase, it fails
    the run with its own exception, and the run requests no decrease. *)
Definition compensates_only_rejection (r : res AssetResult)
    (t : list event) : Prop :=
  (forall spender amount o,
     In (EvDecreaseAllowance spender amount o) t ->
     exists a msg, In (EvCreateAsset a (Raise (ContractLogicError msg))) t) /\
  (forall a e,
     In (EvCreateAsset a (Raise e)) t ->
     is_ContractLogicError e = false ->
     r = Raise e /\
     (exists pre spender,
        t = (pre ++ [EvIncreaseAllowance spender (ca_tokenAmount a) (Ok tt);
                     EvCreateAsset a (Raise e)])%list) /\
     Forall (fun ev => is_decrease ev = false) t).

(** The token amount of [update] when the caller gives none: every
    update-asset-state transaction of the run carries the bid suggested for
    the epochs that are left, less the amount already escrowed, and never
    less than zero.  The epochs left are those of the agreement less the
    current epoch, [math.floor((now - startTime) / epochLength)]. *)
Definition computes_token_amount (t : list event) : Prop :=
  forall a o,
    In (EvUpdateAssetState a o) t ->
    exists agreement_id agreement block quotient suggestion bid escrowed,
      In (EvGetServiceAgreementData agreement_id (Ok agreement)) t /\
      In (EvGetBlock "latest" (Ok block)) t /\
      truediv (timestamp block - startTime agreement)
        (epochLength agreement) = Ok quotient /\
      In (EvBidSuggestion suggestion (Ok bid)) t /\
      bs_epochs_number suggestion
        = epochsNumber agreement - math_floor quotient /\
      tokensInfo agreement !! 0%nat = Some escrowed /\
      ua_update_token_amount a = Z.max 0 (bidSuggestion bid - escrowed) /\
      0 <= ua_update_token_amount a.

Definition not_subscriptable : exn :=
  TypeError "'NoneType' object is not subscriptable".

Definition is_latest_lookup (e : event) : bool :=
  match e with EvGetLatestAssertionId _ _ => true | _ => false end.

(** What [get] comes to: it never returns a value and never asks the
    ledger for the latest assertion id; a Completed response of the node
    is the last event of the run, which then fails on subscripting the
    [None] that the nested polling function returned. *)
Definition breaks_on_completion (r : res GetResult) (t : list event) : Prop :=
  is_Ok r = false /\
  Forall (fun e => is_latest_lookup e = false) t /\
  forall i op resp,
    In (EvGetOperationResult i op (Ok resp)) t ->
    status resp = Completed ->
    r = Raise not_subscriptable /\
    last t = Some (EvGetOperationResult i op (Ok resp)).
End Postconditions.

(** ** A scripted world, on which the engine runs

    The ledger and the node answer from a script: the outcome of the mint
    and of the allowance decrease, the successive answers to the result
    requests (Pending once they are used up), the time of the latest
    block, the agreement and the suggested bid. *)
Record Script := {
  mint_outcome : res TxReceipt;
  decrease_outcome : res unit;
  answers : list (res OperationResult);
  latest_timestamp : Z;
  agreement : AgreementData;
  suggested_bid : Z;
}.

Definition next_answer (w : Script) : res OperationResult * Script :=
  match answers w with
  | [] => (Ok {| status := Pending; data := None |}, w)
  | o :: rest =>
      (o, {| mint_outcome := mint_outcome w;
             decrease_outcome := decrease_outcome w;
             answers := rest;
             latest_timestamp := latest_timestamp w;
             agreement := agreement w;
             suggested_bid := suggested_bid w |})
  end.

Definition script_ledger : BlockchainRequest.t Script := {|
  BlockchainRequest.chain_id w := (Ok 2043, w);
  BlockchainRequest.get_contract_address _ w := (Ok "0xAgreement", w);
  BlockchainRequest.get_asset_storage_address _ w := (Ok "0xStorage", w);
  BlockchainRequest.increase_allowance _ _ w := (Ok tt, w);
  BlockchainRequest.decrease_allowance _ _ w := (decrease_outcome w, w);
  BlockchainRequest.create_asset _ w := (mint_outcome w, w);
  BlockchainRequest.get_block _ w :=
    (Ok {| timestamp := latest_timestamp w |}, w);
  BlockchainRequest.get_service_agreement_data _ w := (Ok (agreement w), w);
  BlockchainRequest.update_asset_state _ w := (Ok tt, w);
  BlockchainRequest.get_latest_assertion_id _ w := (Ok [], w);
  BlockchainRequest.get_assertion_id_by_index _ _ w := (Ok "0xfirst", w);
  BlockchainRequest.owner_of _ w := (Ok "0xOwner", w);
|}.

Definition script_node : NodeRequest.t Script := {|
  NodeRequest.bid_suggestion _ w :=
    (Ok {| bidSuggestion := suggested_bid w |}, w);
  NodeRequest.local_store _ w := (Ok {| operationId := "op-store" |}, w);
  NodeRequest.publish _ w := (Ok {| operationId := "op-publish" |}, w);
  NodeRequest.update _ w := (Ok {| operationId := "op-update" |}, w);
  NodeRequest.get _ _ w := (Ok {| operationId := "op-get" |}, w);
  NodeRequest.get_operation_result _ _ w := next_answer w;
|}.

Definition script_clock : Clock Script := {| sleep _ w := w |}.

Definition script_provider : BlockchainProvider := {|
  SUPPORTED_NETWORKS := {[ 2043 := "otp" ]};
  decode_logs_event _ _ _ := Ok [{| args := {[ "tokenId" := 7 ]} |}];
|}.

(** A stand-in for the statement of a graph node. *)
Definition statement_of (j : JSON) : string :=
  match j with
  | JStr s => s
  | JObj ((k, JStr v) :: _) => "<" +:+ k +:+ "> " +:+ v
  | _ => "_:b0"
  end.

(** Stand-ins for the pure helpers: a graph yields one statement per node,
    the Merkle root is the concatenation of the leaves. *)
Definition script_utils : Utils := {|
  jsonld_normalize dataset _ :=
    match dataset with
    | JNull => None
    | JObj [(_, JList nodes)] => Some (statement_of <$> nodes)
    | _ => Some [statement_of dataset]
    end;
  jsonld_from_rdf s := Ok (JStr s);
  hash_assertion_with_indexes quads :=
    imap (fun i quad => pretty i +:+ ":" +:+ quad) quads;
  MerkleTree_root leaves _ := "0x" +:+ String.concat "|" leaves;
  generate_assertion_metadata quads :=
    {| size := Z.of_nat (String.length (String.concat newline quads));
       triples_number := Z.of_nat (length quads);
       chunks_number := 1 |};
  generate_keyword storage first_id := storage +:+ first_id;
  generate_agreement_id storage token keyword := "agreement:" +:+ keyword;
  parse_ual ual :=
    Ok {| blockchain := "otp";
          contract_address := "0xStorage";
          token_id := 7 |};
  format_ual chain storage token :=
    chain +:+ ":" +:+ storage +:+ ":" +:+ pretty token;
  Web3_to_bytes _ := [];
  Web3_to_hex _ := "0x";
|}.

Definition completed (quads : NQuads) : res OperationResult :=
  Ok {| status := Completed;
        data := Some {| assertion := Some quads; errorMessage := "" |} |}.

Definition quiet_agreement : AgreementData :=
  {| startTime := 1000; epochsNumber := 5; epochLength := 100;
     tokensInfo := [250] |}.

(** The world of the specification's end-to-end example: the bid is 100,
    the mint goes through, and both operations complete on the first
    poll. *)
Definition prompt_world : Script :=
  {| mint_outcome := Ok JNull;
     decrease_outcome := Ok tt;
     answers := [completed []; completed []];
     latest_timestamp := 1250;
     agreement := quiet_agreement;
     suggested_bid := 100 |}.

(** A world whose mint the contract rejects. *)
Definition rejecting_world : Script :=
  {| mint_outcome := Raise (ContractLogicError "execution reverted");
     decrease_outcome := Ok tt;
     answers := [];
     latest_timestamp := 1250;
     agreement := quiet_agreement;
     suggested_bid := 100 |}.

(** A world whose mint fails without the contract rejecting it. *)
Definition unreachable_world : Script :=
  {| mint_outcome := Raise (OtherError "ConnectionError" "no route to host");
     decrease_outcome := Ok tt;
     answers := [];
     latest_timestamp := 1250;
     agreement := quiet_agreement;
     suggested_bid := 100 |}.

(** A world whose operations stay Pending for ever. *)
Definition stalled_world : Script :=
  {| mint_outcome := Ok JNull;
     decrease_outcome := Ok tt;
     answers := [];
     latest_timestamp := 1250;
     agreement := quiet_agreement;
     suggested_bid := 100 |}.

Definition failure : OperationResult :=
  {| status := Failed;
     data := Some {| assertion := None; errorMessage := "no replication" |} |}.

(** A world whose operation is reported Failed at the second poll. *)
Definition failing_world : Script :=
  {| mint_outcome := Ok JNull;
     decrease_outcome := Ok tt;
     answers := [Ok {| status := Pending; data := None |}; Ok failure];
     latest_timestamp := 1250;
     agreement := quiet_agreement;
     suggested_bid := 100 |}.

Definition served : OperationResult :=
  {| status := Completed;
     data := Some {| assertion := Some ["<ex:1> <ex:name> <ex:A> ."];
                     errorMessage := "" |} |}.

(** A world whose Get operation completes, at the first poll, with a
    statement whose Merkle root is not the one on the ledger. *)
Definition serving_world : Script :=
  {| mint_outcome := Ok JNull;
     decrease_outcome := Ok tt;
     answers := [Ok served];
     latest_timestamp := 1250;
     agreement := quiet_agreement;
     suggested_bid := 100 |}.

Definition private_content : Content :=
  {| public := Some (JObj [("@id", JStr "ex:1"); ("name", JStr "A")]);
     private := Some (JObj [("secret", JStr "s")]) |}.

Definition empty_content : Content :=
  {| public := None; private := Some (JObj []) |}.

Definition example_mint : CreateArgs :=
  {| ca_assertionId := [];
     ca_size := 10;
     ca_triplesNumber := 1;
     ca_chunksNumber := 1;
     ca_tokenAmount := 100;
     ca_epochsNumber := 2;
     ca_scoreFunctionId := 1;
     ca_immutable_ := false |}.

Definition example_update : UpdateArgs :=
  {| ua_token_id := 7;
     ua_assertion_id := "0x0:<@id> ex:1";
     ua_size := 10;
     ua_triples_number := 1;
     ua_chunks_number := 1;
     ua_update_token_amount := 0 |}.

Definition example_content : Content :=
  {| public := Some (JObj [("@id", JStr "ex:1"); ("name", JStr "A")]);
     private := None |}.

Section Rules.
Context {W : Type}.
Implicit Types s : state W.

Lemma wp_ret {A} (a : A) (Q : res A -> list event -> Prop) :
  Q (Ok a) [] -> wp (W:=W) (ret a) Q.
Proof. intros HQ s. exists []. rewrite app_nil_r. done. Qed.

Lemma wp_raise {A} (e : exn) (Q : res A -> list event -> Prop) :
  Q (Raise e) [] -> wp (W:=W) (raise e) Q.
Proof. intros HQ s. exists []. rewrite app_nil_r. done. Qed.

Lemma wp_lift {A} (r : res A) (Q : res A -> list event -> Prop) :
  Q r [] -> wp (W:=W) (lift r) Q.
Proof. intros HQ s. exists []. rewrite app_nil_r. done. Qed.

Lemma wp_invoke {T} (h : W -> res T * W) (ev : res T -> event)
    (Q : res T -> list event -> Prop) :
  (forall o, Q o [ev o]) -> wp (invoke h ev) Q.
Proof.
  intros HQ s. unfold invoke. destruct (h (world s)) as [o w].
  exists [ev o]. simpl. auto.
Qed.

Lemma wp_bind {A B} (m : M W A) (k : A -> M W B)
    (Q : res B -> list event -> Prop) :
  wp m (fun r t =>
          match r with
          | Ok a => wp (k a) (fun r' t' => Q r' (t ++ t')%list)
          | Raise e => Q (Raise e) t
          end) ->
  wp (bind m k) Q.
Proof.
  intros Hm s. destruct (Hm s) as (t & Ht & HQ). unfold bind.
  destruct (m s) as [[a|e] s1]; simpl in *.
  - destruct (HQ s1) as (t' & Ht' & HQ'). exists (t ++ t')%list.
    rewrite Ht', Ht, app_assoc. done.
  - exists t. done.
Qed.

Lemma wp_try_except {A} (m : M W A) (h : exn -> M W A)
    (Q : res A -> list event -> Prop) :
  wp m (fun r t =>
          match r with
          | Ok a => Q (Ok a) t
          | Raise e => wp (h e) (fun r' t' => Q r' (t ++ t')%list)
          end) ->
  wp (try_except m h) Q.
Proof.
  intros Hm s. destruct (Hm s) as (t & Ht & HQ). unfold try_except.
  destruct (m s) as [[a|e] s1]; simpl in *.
  - exists t. done.
  - destruct (HQ s1) as (t' & Ht' & HQ'). exists (t ++ t')%list.
    rewrite Ht', Ht, app_assoc. done.
Qed.

Lemma wp_mono {A} (m : M W A) (Q Q' : res A -> list event -> Prop) :
  wp m Q -> (forall r t, Q r t -> Q' r t) -> wp m Q'.
Proof.
  intros Hm HQ s. destruct (Hm s) as (t & Ht & H). exists t. auto.
Qed.

Lemma wp_run {A} (m : M W A) (Q : res A -> list event -> Prop) (w : W) :
  wp m Q -> Q (run m w).1 (trace (run m w).2).
Proof.
  intros Hm. destruct (Hm {| world := w; trace := [] |}) as (t & Ht & HQ).
  unfold run. rewrite Ht. done.
Qed.

(** The rules for [only]. *)

Lemma only_ret {A} P (a : A) : wp (W:=W) (ret a) (only P).
Proof. apply wp_ret. constructor. Qed.

Lemma only_raise {A} P e : wp (W:=W) (A:=A) (raise e) (only P).
Proof. apply wp_raise. constructor. Qed.

Lemma only_lift {A} P (r : res A) : wp (W:=W) (lift r) (only P).
Proof. apply wp_lift. constructor. Qed.

Lemma only_invoke {T} P (h : W -> res T * W) (ev : res T -> event) :
  (forall o, P (ev o)) -> wp (invoke h ev) (only P).
Proof. intros HP. apply wp_invoke. intros o. repeat constructor. auto. Qed.

Lemma only_bind {A B} P (m : M W A) (k : A -> M W B) :
  wp m (only P) -> (forall a, wp (k a) (only P)) -> wp (bind m k) (only P).
Proof.
  intros Hm Hk. apply wp_bind. eapply wp_mono; [exact Hm|].
  intros [a|e] t Ht; [|exact Ht].
  eapply wp_mono; [apply Hk|]. intros r' t' Ht'.
  apply Forall_app. done.
Qed.

Lemma only_bind_lift {A B} P (r : res A) (k : A -> M W B) :
  (forall a, r = Ok a -> wp (k a) (only P)) -> wp (bind (lift r) k) (only P).
Proof.
  intros Hk. apply wp_bind, wp_lift. destruct r as [a|e].
  - eapply wp_mono; [by apply Hk|]. intros r' t' Ht'. exact Ht'.
  - constructor.
Qed.

Lemma only_bind_ret {A B} P (a : A) (k : A -> M W B) :
  wp (k a) (only P) -> wp (bind (ret a) k) (only P).
Proof.
  intros Hk. apply wp_bind, wp_ret. eapply wp_mono; [exact Hk|].
  intros r' t' Ht'. exact Ht'.
Qed.

Lemma only_try_except {A} P (m : M W A) (h : exn -> M W A) :
  wp m (only P) -> (forall e, wp (h e) (only P)) ->
  wp (try_except m h) (only P).
Proof.
  intros Hm Hh. apply wp_try_except. eapply wp_mono; [exact Hm|].
  intros [a|e] t Ht; [exact Ht|].
  eapply wp_mono; [apply Hh|]. intros r' t' Ht'.
  apply Forall_app. done.
Qed.

Lemma only_In {A} (P : event -> Prop) (r : res A) (t : list event) e :
  only P r t -> In e t -> P e.
Proof. intros Ht He. eapply List.Forall_forall in Ht; eauto. Qed.

Lemma only_weaken {A} (P P' : event -> Prop) (m : M W A) :
  wp m (only P) -> (forall e, P e -> P' e) -> wp m (only P').
Proof.
  intros Hm HP. eapply wp_mono; [exact Hm|].
  intros r t Ht. eapply Forall_impl; eauto.
Qed.
End Rules.

Section Properties.
Context {W : Type}.
Context {ledger : BlockchainRequest.t W} {node : NodeRequest.t W}.
Context {clock : Clock W}.
Context {provider : BlockchainProvider} {utils : Utils}.

Lemma wp_time_sleep (d : Z) (Q : res unit -> list event -> Prop) :
  Q (Ok tt) [EvSleep d] -> wp (W:=W) (time_sleep d) Q.
Proof. intros HQ s. exists [EvSleep d]. done. Qed.

Lemma only_time_sleep P (d : Z) :
  P (EvSleep d) -> wp (W:=W) (time_sleep d) (only P).
Proof. intros HP. apply wp_time_sleep. repeat constructor. done. Qed.

Lemma only_retry {A} P catch n d b (func : M W A) :
  (forall d', P (EvSleep d')) ->
  wp func (only P) ->
  wp (retry catch n d b func) (only P).
Proof.
  intros Hs Hf. revert d. induction n as [|n IH]; intros d; simpl.
  - apply only_raise.
  - apply only_bind; [by apply only_time_sleep|]. intros _.
    apply only_try_except; [done|]. intros e.
    destruct (catch e); [apply IH | apply only_raise].
Qed.

Lemma only_get_operation_result P (operation_id operation : string) :
  (forall d, P (EvSleep d)) ->
  (forall o, P (EvGetOperationResult operation_id operation o)) ->
  wp (W:=W) (get_operation_result operation_id operation) (only P).
Proof.
  intros Hs Hp. apply only_retry; [done|].
  apply only_bind; [by apply only_invoke|]. intros r.
  apply only_bind; [apply only_lift|]. intros _. apply only_ret.
Qed.
End Properties.

Create HintDb methods.
#[local] Hint Unfold _chain_id _get_contract_address
  _get_asset_storage_address _increase_allowance _decrease_allowance _create
  _get_block _get_service_agreement_data _update_asset_state
  _get_latest_assertion_id _get_assertion_id_by_index _owner
  _get_bid_suggestion _local_store _publish _update _get
  _get_operation_result : methods.

(** One step of a proof that every event of a program satisfies a
    predicate. *)
Ltac only_step :=
  lazymatch goal with
  | |- wp (bind (lift _) _) (only _) =>
      apply only_bind_lift; intros ? ?; cbv beta zeta
  | |- wp (bind (ret _) _) (only _) => apply only_bind_ret; cbv beta zeta
  | |- wp (bind _ _) (only _) =>
      apply only_bind; [|intros ?; cbv beta zeta]
  | |- wp (try_except _ _) (only _) =>
      apply only_try_except; [|intros ?; cbv beta zeta]
  | |- wp (ret _) (only _) => apply only_ret
  | |- wp (raise _) (only _) => apply only_raise
  | |- wp (lift _) (only _) => apply only_lift
  | |- wp (get_operation_result _ _) (only _) =>
      apply only_get_operation_result; [intros ?|intros ?]
  | |- wp (invoke _ _) (only _) => apply only_invoke; intros ?
  | |- wp (match ?x with _ => _ end) (only _) => destruct x
  end.

(** One step of the symbolic execution of a program against an arbitrary
    postcondition: every request splits on its outcome. *)
Ltac wp_step :=
  lazymatch goal with
  | |- wp (bind _ _) _ => apply wp_bind
  | |- wp (try_except _ _) _ => apply wp_try_except
  | |- wp (ret _) _ => apply wp_ret
  | |- wp (raise _) _ => apply wp_raise
  | |- wp (lift ?r) _ => apply wp_lift; destruct r eqn:?
  | |- wp (invoke _ _) _ => apply wp_invoke; intros [?|?]
  | |- wp (match ?x with _ => _ end) _ => destruct x eqn:?
  | |- wp (get_operation_result ?i ?o) _ =>
      eapply wp_mono;
      [apply (only_get_operation_result (is_poll i o)); intros ?; by simpl|];
      intros [?|?] ? ?
  end; cbv beta iota zeta.

(** Where an event of a trace can be: the trace is a concatenation of
    explicit events and of poll loops. *)
Ltac locate_event :=
  repeat match goal with
         | H : False |- _ => destruct H
         | H : _ \/ _ |- _ => destruct H
         | H : In _ (_ ++ _) |- _ => apply in_app_or in H
         | H : In _ (_ :: _) |- _ => simpl in H
         | H : In _ [] |- _ => destruct H
         | H : In _ ?t, HF : only _ _ ?t |- _ =>
             apply (only_In _ _ _ _ HF) in H; simpl in H
         | H : @eq event _ _ |- _ => discriminate H
         | H : @eq event _ _ |- _ => injection H as ?; subst
         | H : @eq (res _) _ _ |- _ => discriminate H
         | H : @eq (res _) (Raise _) (Raise _) |- _ => injection H as ?; subst
         | H : @eq exn _ _ |- _ => discriminate H
         | H : @eq exn _ _ |- _ => injection H as ?; subst
         end.

(** ** [math.floor(a / b)] is the floored quotient on safe integers *)

Lemma div_rne_bounds x d :
  0 <= x -> 0 < d ->
  x / d <= div_rne x d <= x / d + 1 /\
  (div_rne x d = x / d + 1 -> d <= 2 * (x mod d)) /\
  (div_rne x d = x / d -> 2 * (x mod d) <= d).
Proof.
  intros Hx Hd. unfold div_rne.
  destruct (Z.ltb_spec (2 * (x mod d)) d); [lia|].
  destruct (Z.ltb_spec d (2 * (x mod d))); [lia|].
  destruct (Z.even (x / d)); lia.
Qed.

(** [quot_exponent] brackets the quotient between two powers of two. *)
Lemma quot_exponent_spec n d :
  0 < n -> 0 < d ->
  let e := quot_exponent n d in
  (0 <= e -> d * 2 ^ e <= n < d * 2 ^ (e + 1)) /\
  (e < 0 -> d <= n * 2 ^ (- e) < 2 * d).
Proof.
  intros Hn Hd.
  destruct (Z.log2_spec n Hn) as [Hn1 Hn2].
  destruct (Z.log2_spec d Hd) as [Hd1 Hd2].
  pose proof (Z.log2_nonneg n) as Hln. pose proof (Z.log2_nonneg d) as Hld.
  unfold quot_exponent, scaled_le.
  set (ln := Z.log2 n) in *. set (ld := Z.log2 d) in *.
  rewrite Z.pow_succ_r in Hn2, Hd2 by lia.
  destruct (Z.leb_spec 0 (ln - ld)) as [He0|He0].
  - (* ln = ld + e0 *)
    assert (Hpow : 2 ^ ln = 2 ^ ld * 2 ^ (ln - ld)).
    { rewrite <- Z.pow_add_r by lia. f_equal. lia. }
    assert (0 < 2 ^ (ln - ld)) by (apply Z.pow_pos_nonneg; lia).
    assert (0 < 2 ^ ld) by (apply Z.pow_pos_nonneg; lia).
    destruct (Z.leb_spec (d * 2 ^ (ln - ld)) n) as [Hle|Hlt]; cbv zeta.
    + split; [intros _|lia].
      split; [lia|]. rewrite Z.pow_add_r by lia. change (2 ^ 1) with 2. nia.
    + split.
      * intros He. replace (ln - ld - 1 + 1) with (ln - ld) by lia.
        split; [|lia].
        assert (2 ^ (ln - ld) = 2 * 2 ^ (ln - ld - 1)) as Hs.
        { rewrite <- Z.pow_succ_r by lia. f_equal. lia. }
        assert (0 < 2 ^ (ln - ld - 1)) by (apply Z.pow_pos_nonneg; lia).
        nia.
      * intros He. assert (ln - ld = 0) as Hz by lia.
        rewrite Hz in *. change (- (0 - 1)) with 1. change (2 ^ 1) with 2.
        change (2 ^ 0) with 1 in *. lia.
  - assert (Hpow : 2 ^ ld = 2 ^ ln * 2 ^ (- (ln - ld))).
    { rewrite <- Z.pow_add_r by lia. f_equal. lia. }
    assert (0 < 2 ^ (- (ln - ld))) by (apply Z.pow_pos_nonneg; lia).
    assert (0 < 2 ^ ln) by (apply Z.pow_pos_nonneg; lia).
    destruct (Z.leb_spec d (n * 2 ^ (- (ln - ld)))) as [Hle|Hlt]; cbv zeta.
    + split; [lia|intros _]. split; [lia|]. nia.
    + split; [lia|intros _].
      replace (- (ln - ld - 1)) with (Z.succ (- (ln - ld))) by lia.
      rewrite Z.pow_succ_r by lia. nia.
Qed.

Lemma quot_exponent_safe n d :
  0 < n < 2 ^ 53 -> 0 < d < 2 ^ 53 ->
  let e := quot_exponent n d in
  -53 <= e <= 52 /\ d * 2 ^ 52 <= n * 2 ^ (52 - e) < d * 2 ^ 53.
Proof.
  intros Hn Hd. cbv zeta.
  destruct (quot_exponent_spec n d) as [Hpos Hneg]; [lia..|].
  cbv zeta in *. set (e := quot_exponent n d) in *.
  destruct (Z.le_gt_cases 0 e) as [He|He].
  - destruct (Hpos He) as [H1 H2].
    assert (0 < 2 ^ e) by (apply Z.pow_pos_nonneg; lia).
    assert (e < 53) as He'.
    { apply (Z.pow_lt_mono_r_iff 2); [lia..|]. nia. }
    split; [lia|].
    assert (0 < 2 ^ (52 - e)) by (apply Z.pow_pos_nonneg; lia).
    assert (2 ^ 52 = 2 ^ e * 2 ^ (52 - e)) as E1.
    { rewrite <- Z.pow_add_r by lia. f_equal. lia. }
    assert (2 ^ 53 = 2 ^ (e + 1) * 2 ^ (52 - e)) as E2.
    { rewrite <- Z.pow_add_r by lia. f_equal. lia. }
    rewrite E1, E2. nia.
  - destruct (Hneg He) as [H1 H2].
    assert (0 < 2 ^ (- e)) by (apply Z.pow_pos_nonneg; lia).
    assert (- e < 54) as He'.
    { apply (Z.pow_lt_mono_r_iff 2); [lia..|]. nia. }
    split; [lia|].
    assert (2 ^ (52 - e) = 2 ^ (- e) * 2 ^ 52) as E1.
    { rewrite <- Z.pow_add_r by lia. f_equal. lia. }
    rewrite E1. replace (2 ^ 53) with (2 * 2 ^ 52) by reflexivity.
    generalize dependent (2 ^ 52). intros. nia.
Qed.

(** Rounding [n * P / d] to the nearest integer stays strictly inside the
    multiples of [P] around it as long as [d < 2 * P]. *)
Lemma div_rne_scaled n d P :
  0 <= n -> 0 < d -> 0 < P -> d < 2 * P ->
  let m := div_rne (n * P) d in
  n / d * P <= m < (n / d + 1) * P /\
  (n mod d = 0 -> m = n / d * P) /\
  (0 < n mod d -> n / d * P < m).
Proof.
  intros Hn Hd HP HdP. cbv zeta.
  pose proof (Z.div_mod n d ltac:(lia)) as Hnd.
  pose proof (Z.mod_pos_bound n d Hd) as Hr.
  set (k := n / d) in *. set (r := n mod d) in *.
  pose proof (Z.div_mod (r * P) d ltac:(lia)) as Hrd.
  pose proof (Z.mod_pos_bound (r * P) d Hd) as Hr'.
  set (q' := r * P / d) in *. set (r' := (r * P) mod d) in *.
  assert (0 <= q') as Hq' by (apply Z.div_pos; nia).
  assert (n * P = d * (k * P + q') + r') as Hx by nia.
  assert (n * P / d = k * P + q') as Hdiv.
  { symmetry. apply (Z.div_unique_pos _ _ _ r'); lia. }
  assert ((n * P) mod d = r') as Hmod.
  { symmetry. apply (Z.mod_unique_pos _ _ (k * P + q')); lia. }
  destruct (div_rne_bounds (n * P) d ltac:(nia) Hd) as (Hb & Hup & Hdown).
  rewrite Hdiv, Hmod in *.
  set (m := div_rne (n * P) d) in *.
  assert (q' < P) as HqP by nia.
  assert (m = k * P + q' \/ m = k * P + q' + 1) as [Hm|Hm] by lia.
  - specialize (Hdown Hm). split; [nia|]. split.
    + intros Hz. rewrite Hz in *. assert (q' = 0) by nia. lia.
    + intros Hpos. assert (q' = 0 -> False); [|nia].
      intros Hz. rewrite Hz in *. nia.
  - specialize (Hup Hm). split.
    + split; [nia|].
      assert (q' = P - 1 -> False); [|nia].
      intros Hz. rewrite Hz in *. nia.
    + split; [|nia].
      intros Hz. rewrite Hz in *. assert (q' = 0) by nia.
      assert (r' = 0) by nia. lia.
Qed.

(** For operands below [2^53] the floor of the true division is the
    floored quotient. *)
Lemma math_floor_truediv a b :
  Z.abs a < 2 ^ 53 -> 0 < b < 2 ^ 53 ->
  exists q, truediv a b = Ok q /\ math_floor q = a / b.
Proof.
  intros Ha Hb. unfold truediv.
  destruct (Z.eqb_spec b 0) as [|_]; [lia|].
  destruct (Z.eqb_spec a 0) as [->|Ha0].
  { eexists. split; [reflexivity|]. unfold math_floor. simpl.
    destruct (b <? 0); reflexivity. }
  cbv zeta. rewrite (Z.abs_eq b) by lia.
  destruct (quot_exponent_safe (Z.abs a) b) as [He Hs]; [lia..|].
  set (e := quot_exponent (Z.abs a) b) in *.
  rewrite Z.max_l by lia.
  assert ((b <? 0) = false) as -> by (apply Z.ltb_ge; lia).
  rewrite xorb_false_r.
  assert (Hfloor : forall m P, 0 < P ->
            Z.abs a / b * P <= m < (Z.abs a / b + 1) * P ->
            (Z.abs a mod b = 0 -> m = Z.abs a / b * P) ->
            (0 < Z.abs a mod b -> Z.abs a / b * P < m) ->
            (if a <? 0 then - ((m + P - 1) / P) else m / P) = a / b).
  { intros m P HP Hm Hz Hnz.
    pose proof (Z.div_mod (Z.abs a) b ltac:(lia)) as Hnd.
    pose proof (Z.mod_pos_bound (Z.abs a) b ltac:(lia)) as Hr.
    set (k := Z.abs a / b) in *. set (r := Z.abs a mod b) in *.
    destruct (Z.ltb_spec a 0) as [Hneg|Hpos].
    - destruct (Z.eq_dec r 0) as [Hr0|Hr0].
      + rewrite (Hz Hr0).
        assert ((k * P + P - 1) / P = k) as ->.
        { symmetry. apply (Z.div_unique_pos _ _ _ (P - 1)); lia. }
        apply (Z.div_unique_pos a b (- k) 0); lia.
      + specialize (Hnz ltac:(lia)).
        assert ((m + P - 1) / P = k + 1) as ->.
        { symmetry.
          apply (Z.div_unique_pos _ _ _ (m + P - 1 - P * (k + 1))); lia. }
        apply (Z.div_unique_pos a b (- (k + 1)) (b - r)); lia.
    - assert (a / b = k) as -> by (unfold k; rewrite Z.abs_eq by lia; reflexivity).
      symmetry. apply (Z.div_unique_pos _ _ _ (m - P * k)); lia. }
  destruct (Z.leb_spec 0 (e - 52)) as [Hp|Hp].
  - assert (e = 52) as He52 by lia. rewrite He52 in *.
    change (52 - 52) with 0 in *. change (2 ^ 0) with 1 in *.
    assert (b = 1) as -> by nia.
    rewrite !Z.mul_1_r in *.
    assert (div_rne (Z.abs a) 1 = Z.abs a) as Hm.
    { unfold div_rne. rewrite Z.mod_1_r, Z.div_1_r. reflexivity. }
    rewrite Hm.
    destruct (Z.leb_spec (2 ^ 1024) (Z.abs a)) as [Hbig|_].
    { exfalso. assert (2 ^ 53 < 2 ^ 1024) by (apply Z.pow_lt_mono_r; lia).
      lia. }
    eexists. split; [reflexivity|]. unfold math_floor. simpl.
    rewrite Z.mul_1_r, Z.div_1_r.
    destruct (Z.ltb_spec a 0); lia.
  - simpl andb.
    eexists. split; [reflexivity|]. unfold math_floor. simpl f_mant.
    simpl f_exp. simpl f_neg.
    destruct (Z.leb_spec 0 (e - 52)) as [|_]; [lia|].
    replace (- (e - 52)) with (52 - e) by lia.
    assert (0 < 2 ^ (52 - e)) as HP by (apply Z.pow_pos_nonneg; lia).
    assert (b < 2 * 2 ^ (52 - e)) as HbP.
    { apply (Z.mul_lt_mono_pos_r (2 ^ 52)); [lia|].
      apply Z.le_lt_trans with (Z.abs a * 2 ^ (52 - e)); [lia|].
      replace (2 * 2 ^ (52 - e) * 2 ^ 52)
        with (2 ^ 53 * 2 ^ (52 - e)) by (change (2 ^ 53) with (2 * 2 ^ 52); ring).
      apply Z.mul_lt_mono_pos_r; lia. }
    destruct (div_rne_scaled (Z.abs a) b (2 ^ (52 - e)))
      as (Hm & Hz & Hnz); [lia..|].
    cbv zeta in *. apply Hfloor; assumption.
Qed.

Section Claims.
Context {W : Type}.
Context {ledger : BlockchainRequest.t W} {node : NodeRequest.t W}.
Context {clock : Clock W}.
Context {provider : BlockchainProvider} {utils : Utils}.




Lemma given_present (v : option JSON) :
  match given v with
  | Some _ => present v = true
  | None => present v = false
  end.
Proof. destruct v as [j|]; simpl; [destruct (truthy j)|]; done. Qed.

Lemma process_content_private content type assertions :
  _process_content content type = Ok assertions ->
  match given (private content) with
  | Some _ => is_Some (a_private assertions)
  | None => a_private assertions = None
  end.
Proof.
  unfold _process_content. intros H.
  destruct (given (private content)) as [p|]; simpl in H.
  - destruct (normalize_dataset p type) as [q|e]; simpl in H; [|done].
    destruct (normalize_dataset _ type); simpl in H; [|done].
    injection H as <-. simpl. eauto.
  - destruct (normalize_dataset _ type); simpl in H; [|done].
    by injection H as <-.
Qed.

Lemma assertions_list_shape content type assertions chain storage token st l o :
  _process_content content type = Ok assertions ->
  assertions_list content assertions chain storage token st = Ok l ->
  stores_as st content type (EvLocalStore l o).
Proof.
  intros Hp Hl. exists assertions, chain, storage, token.
  split; [done|]. cbv zeta.
  pose proof (process_content_private _ _ _ Hp) as Hpriv.
  pose proof (given_present (private content)) as Hg.
  unfold assertions_list, getitem_private in Hl.
  destruct (given (private content)) as [p|].
  - destruct Hpriv as [pr Hpr]. rewrite Hpr in Hl |- *. simpl in Hl.
    injection Hl as <-. done.
  - rewrite Hpriv. injection Hl as <-. done.
Qed.

Lemma create_stores_as content epochs_number token_amount immutable type :
  wp (W:=W) (create content epochs_number token_amount immutable type)
     (only (stores_as TRIPLE content type)).
Proof.
  unfold create. autounfold with methods.
  repeat only_step;
    first [by eapply assertions_list_shape | simpl; auto].
Qed.

Lemma update_stores_as ual content token_amount type :
  wp (W:=W) (update ual content token_amount type)
     (only (stores_as PENDING content type)).
Proof.
  unfold update, get_agreement_id. autounfold with methods.
  repeat only_step;
    first [by eapply assertions_list_shape | simpl; auto].
Qed.

Lemma assertions_list_store_list content type assertions chain storage
    token st :
  _process_content content type = Ok assertions ->
  assertions_list content assertions chain storage token st
  = Ok (store_list st chain storage token assertions) /\
  length (store_list st chain storage token assertions)
  = (if present (private content) then 2 else 1)%nat.
Proof.
  intros Hp.
  pose proof (process_content_private _ _ _ Hp) as Hpriv.
  pose proof (given_present (private content)) as Hg.
  unfold assertions_list, getitem_private, store_list.
  destruct (given (private content)) as [p|].
  - destruct Hpriv as [pr Hpr]. rewrite Hpr, Hg. done.
  - rewrite Hpriv, Hg. done.
Qed.

(** Two results of the same computation are the same. *)
Ltac same_results :=
  repeat match goal with
         | H1 : ?f = Ok ?x, H2 : ?f = Ok ?y |- _ =>
             lazymatch x with
             | y => fail
             | _ => assert (x = y) by congruence; subst
             end
         | H1 : ?f = Ok _, H2 : ?f = Raise _ |- _ => congruence
         | H1 : ?f = Some ?x, H2 : ?f = Some ?y |- _ =>
             lazymatch x with
             | y => fail
             | _ => assert (x = y) by congruence; subst
             end
         | H1 : ?f = Some _, H2 : ?f = None |- _ => congruence
         end.

Lemma create_submits_store content epochs_number token_amount immutable
    type :
  wp (W:=W) (create content epochs_number token_amount immutable type)
     (fun _ t =>
        forall assertions chain chain_name storage a receipt events token,
          _process_content content type = Ok assertions ->
          In (EvChainId (Ok chain)) t ->
          SUPPORTED_NETWORKS !! chain = Some chain_name ->
          In (EvGetAssetStorageAddress "ContentAssetStorage" (Ok storage))
            t ->
          In (EvCreateAsset a (Ok receipt)) t ->
          decode_logs_event receipt "ContentAsset" "AssetMinted"
          = Ok events ->
          minted_token_id events = Ok token ->
          exists o,
            In (EvLocalStore
                  (store_list TRIPLE chain_name storage token assertions) o)
              t).
Proof.
  unfold create, getitem_SUPPORTED_NETWORKS. autounfold with methods.
  repeat wp_step.
  all: intros assertions chain chain_name storage a' receipt events token
         Hp.
  all: intros Hchain; locate_event.
  all: intros Hname Hstorage; locate_event.
  all: intros Hmint; locate_event.
  all: intros Hdec Htoken.
  all: repeat match goal with
              | H : match ?x with _ => _ end = _ |- _ =>
                  rewrite Hname in H; simpl in H
              end.
  all: simplify_eq.
  all: same_results.
  all: match goal with
       | Hc : _process_content _ _ = Ok _,
         H : assertions_list _ _ _ _ _ _ = _ |- _ =>
           rewrite (proj1 (assertions_list_store_list _ _ _ _ _ _ _ Hc))
             in H;
           simplify_eq
       end.
  all: eexists; rewrite !in_app_iff; simpl; by eauto 20.
Qed.

Lemma update_submits_store ual content token_amount type :
  wp (W:=W) (update ual content token_amount type)
     (fun _ t =>
        forall assertions parsed chain chain_name a,
          _process_content content type = Ok assertions ->
          parse_ual ual = Ok parsed ->
          In (EvChainId (Ok chain)) t ->
          SUPPORTED_NETWORKS !! chain = Some chain_name ->
          In (EvUpdateAssetState a (Ok tt)) t ->
          exists o,
            In (EvLocalStore
                  (store_list PENDING chain_name (contract_address parsed)
                     (token_id parsed) assertions) o)
              t).
Proof.
  unfold update, get_agreement_id, getitem_SUPPORTED_NETWORKS.
  autounfold with methods.
  repeat wp_step.
  all: intros assertions parsed chain chain_name a' Hp Hparse.
  all: intros Hchain; locate_event.
  all: intros Hname Hwrite; locate_event.
  all: repeat match goal with
              | H : match ?x with _ => _ end = _ |- _ =>
                  rewrite Hname in H; simpl in H
              end.
  all: simplify_eq.
  all: same_results.
  all: match goal with
       | Hc : _process_content _ _ = Ok _,
         H : assertions_list _ _ _ _ _ _ = _ |- _ =>
           rewrite (proj1 (assertions_list_store_list _ _ _ _ _ _ _ Hc))
             in H;
           simplify_eq
       end.
  all: eexists; rewrite !in_app_iff; simpl; by eauto 20.
Qed.

(** C8: every local-store request of [create] holds the public assertion
    and, exactly when the content has a private part, the private
    assertion, all tagged with the store type TRIPLE; every local-store
    request of [update] holds the same assertions tagged PENDING.  The
    requests are made: a run of [create] whose mint went through and
    whose receipt yields a token id submits the list for that token, and
    a run of [update] whose update-asset-state transaction went through
    submits the list for the token of the locator; the list has two
    entries when the content has a private part and one otherwise. *)
Theorem local_store_tags_assertions
    (w : W) (ual : UAL) (content : Content) (epochs_number : Z)
    (token_amount : option Z) (immutable : bool) (type : ContentType) :
  Forall (stores_as TRIPLE content type)
    (trace (run (create content epochs_number token_amount immutable type)
              w).2) /\
  Forall (stores_as PENDING content type)
    (trace (run (update ual content token_amount type) w).2) /\
  (forall assertions chain chain_name storage a receipt events token,
     let t :=
       trace (run (create content epochs_number token_amount immutable type)
                w).2 in
     _process_content content type = Ok assertions ->
     In (EvChainId (Ok chain)) t ->
     SUPPORTED_NETWORKS !! chain = Some chain_name ->
     In (EvGetAssetStorageAddress "ContentAssetStorage" (Ok storage)) t ->
     In (EvCreateAsset a (Ok receipt)) t ->
     decode_logs_event receipt "ContentAsset" "AssetMinted" = Ok events ->
     minted_token_id events = Ok token ->
     (exists o,
        In (EvLocalStore
              (store_list TRIPLE chain_name storage token assertions) o) t) /\
     length (store_list TRIPLE chain_name storage token assertions)
     = (if present (private content) then 2 else 1)%nat) /\
  (forall assertions parsed chain chain_name a,
     let t := trace (run (update ual content token_amount type) w).2 in
     _process_content content type = Ok assertions ->
     parse_ual ual = Ok parsed ->
     In (EvChainId (Ok chain)) t ->
     SUPPORTED_NETWORKS !! chain = Some chain_name ->
     In (EvUpdateAssetState a (Ok tt)) t ->
     (exists o,
        In (EvLocalStore
              (store_list PENDING chain_name (contract_address parsed)
                 (token_id parsed) assertions) o) t) /\
     length (store_list PENDING chain_name (contract_address parsed)
               (token_id parsed) assertions)
     = (if present (private content) then 2 else 1)%nat).
Proof.
  split; [|split; [|split]].
  - apply (wp_run _ (only (stores_as TRIPLE content type))),
      create_stores_as.
  - apply (wp_run _ (only (stores_as PENDING content type))),
      update_stores_as.
  - intros assertions chain chain_name storage a receipt events token t
      Hp Hchain Hname Hstorage Hmint Hdec Htoken.
    split; [|by apply (assertions_list_store_list content type)].
    exact (wp_run _ _ w
             (create_submits_store content epochs_number token_amount
                immutable type)
             assertions chain chain_name storage a receipt events token
             Hp Hchain Hname Hstorage Hmint Hdec Htoken).
  - intros assertions parsed chain chain_name a t Hp Hparse Hchain Hname
      Hwrite.
    split; [|by apply (assertions_list_store_list content type)].
    exact (wp_run _ _ w (update_submits_store ual content token_amount type)
             assertions parsed chain chain_name a Hp Hparse Hchain Hname
             Hwrite).
Qed.

Lemma retry_polled {A} (f : OperationResult -> A)
    operation_id operation n d b :
  wp (W:=W)
     (retry catch_OperationNotFinished n d b
        (operation_result <- _get_operation_result operation_id operation ;;
         lift (validate_operation_status operation_result) ;;
         ret (f operation_result)))
     (polled f operation_id operation n d b).
Proof.
  revert d. induction n as [|n IH]; intros d; simpl.
  - by apply wp_raise.
  - apply wp_bind, wp_time_sleep, wp_try_except, wp_bind, wp_invoke.
    intros [resp|e].
    + apply wp_bind, wp_lift. unfold validate_operation_status.
      destruct (status resp) eqn:Hst; simpl.
      * eapply wp_mono; [apply IH|]. intros r t Hp.
        eexists _, t. split; [done|]. simpl. by rewrite Hst.
      * apply wp_ret. eexists _, []. split; [done|].
        unfold validate_operation_status. simpl. by rewrite Hst.
      * apply wp_raise. eexists _, []. split; [done|].
        unfold validate_operation_status. simpl. by rewrite Hst.
    + simpl. destruct (catch_OperationNotFinished e) eqn:Hc.
      * eapply wp_mono; [apply IH|]. intros r t Hp.
        eexists _, t. split; [done|]. simpl. by rewrite Hc.
      * apply wp_raise. eexists _, []. split; [done|]. simpl. by rewrite Hc.
Qed.

Lemma unfinished_pending o : pending o -> unfinished o = true.
Proof. intros (resp & -> & Hst). simpl. by rewrite Hst. Qed.

(** A response that is one of the polls of an explicit trace: either it
    is an unfinished one, which its status contradicts, or it is the last
    one. *)
Ltac settle_poll Hin Hst :=
  simpl in Hin;
  repeat (destruct Hin as [->|Hin]);
  try destruct Hin;
  simpl in *; unfold validate_operation_status;
  rewrite ?Hst in *; simpl; try discriminate; eauto.

(** C2: the trace of [get_operation_result] is a sequence of at most five
    attempts, each a wait followed by a request, with the delays 1, 2, 4,
    8, 16.  When every response is Pending there are exactly five attempts
    and OperationNotFinished is raised; a Completed response is the last
    event and is returned; a Failed response is the last event and
    OperationFailed is raised. *)
Theorem get_operation_result_retry_policy
    (w : W) (operation_id operation : string) :
  let r := (run (get_operation_result operation_id operation) w).1 in
  let t := trace (run (get_operation_result operation_id operation) w).2 in
  t = attempts operation_id operation [1; 2; 4; 8; 16] (polls t) /\
  (Forall pending (polls t) ->
   length (polls t) = 5%nat /\ delays t = [1; 2; 4; 8; 16] /\
   exists msg, r = Raise (OperationNotFinished msg)) /\
  (forall resp, In (Ok resp) (polls t) -> status resp = Completed ->
   r = Ok resp /\
   last t = Some (EvGetOperationResult operation_id operation (Ok resp))) /\
  (forall resp, In (Ok resp) (polls t) -> status resp = Failed ->
   (exists msg, r = Raise (OperationFailed msg)) /\
   last t = Some (EvGetOperationResult operation_id operation (Ok resp))).
Proof.
  pose proof (wp_run _ _ w
                (retry_polled (fun x => x) operation_id operation 5 1 2)) as H.
  unfold get_operation_result. cbv zeta.
  destruct (run _ w) as [r s]. simpl in *.
  generalize dependent (trace s). clear s. intros t H.
  repeat match goal with
         | H : ex _ |- _ => destruct H as (? & ? & -> & H)
         | H : if unfinished ?o then _ else _ |- _ =>
             destruct (unfinished o) eqn:?
         | H : _ /\ _ |- _ => destruct H as [-> ->]
         end.
  all: simpl; split; [reflexivity|]; split; [|split].
  all: try (intros resp Hin Hst; settle_poll Hin Hst).
  all: intros HF.
  all: repeat match goal with
              | H : Forall pending (_ :: _) |- _ =>
                  apply Forall_cons in H as [?%unfinished_pending H]
              end.
  all: try congruence.
  eauto.
Qed.

Lemma create_rolls_back content epochs_number token_amount immutable type :
  wp (W:=W) (create content epochs_number token_amount immutable type)
     rolls_back.
Proof.
  unfold create. autounfold with methods.
  repeat wp_step.
  all: intros ? ? Hin; locate_event.
  all: repeat match goal with u : unit |- _ => destruct u end; simpl.
  all: first [eexists [_; _; _], _, _; split; [reflexivity|]
             |eexists [_; _; _; _], _, _; split; [reflexivity|]].
  all: split; [simpl; auto 10|done].
Qed.

(** C1: in every run of [create], a mint that the ledger rejects comes
    right after the increase of the allowance of the service-agreement
    contract and is followed by one last request, the decrease of the
    allowance of the same contract by the same amount, the token amount of
    the mint; once the decrease has gone through, the original rejection
    is raised to the caller. *)
Theorem create_rolls_back_allowance
    (w : W) (content : Content) (epochs_number : Z)
    (token_amount : option Z) (immutable : bool) (type : ContentType)
    (a : CreateArgs) (msg : string) :
  let r :=
    (run (create content epochs_number token_amount immutable type) w).1 in
  let t :=
    trace (run (create content epochs_number token_amount immutable type)
             w).2 in
  In (EvCreateAsset a (Raise (ContractLogicError msg))) t ->
  exists pre spender o,
    t = (pre ++
         [EvIncreaseAllowance spender (ca_tokenAmount a) (Ok tt);
          EvCreateAsset a (Raise (ContractLogicError msg));
          EvDecreaseAllowance spender (ca_tokenAmount a) o])%list /\
    In (EvGetContractAddress "ServiceAgreementV1" (Ok spender)) pre /\
    (o = Ok tt -> r = Raise (ContractLogicError msg)).
Proof.
  exact (wp_run _ _ w
           (create_rolls_back content epochs_number token_amount immutable
              type) a msg).
Qed.

Lemma create_compensates_only_rejection
    content epochs_number token_amount immutable type :
  wp (W:=W) (create content epochs_number token_amount immutable type)
     compensates_only_rejection.
Proof.
  unfold create. autounfold with methods.
  repeat wp_step.
  all: split; [intros ? ? ? Hin|intros ? ? Hin Hc]; locate_event.
  all: try discriminate Hc.
  all: repeat match goal with u : unit |- _ => destruct u end; simpl.
  all: try (split; [done|]; split; [|by repeat constructor]).
  all: first [by eexists [_; _; _], _ | by eexists [_; _; _; _], _
             |eauto 15].
Qed.

Lemma update_computes_token_amount ual content type :
  wp (W:=W) (update ual content None type)
     (fun _ t => computes_token_amount t).
Proof.
  unfold update, get_agreement_id, getitem_tokensInfo_0.
  autounfold with methods.
  repeat wp_step.
  all: intros ? ? Hin; locate_event.
  all: destruct (tokensInfo _ !! 0%nat) as [escrowed|] eqn:Htok; simplify_eq.
  all: match goal with
       | H : tokensInfo _ !! 0%nat = Some ?e |- _ =>
           eexists _, _, _, _, _, _, e
       end.
  all: split; [simpl; eauto 15|].
  all: split; [simpl; eauto 15|].
  all: split; [eassumption|].
  all: split; [simpl; eauto 15|].
  all: split; [reflexivity|].
  all: split; [assumption|].
  all: simpl; match goal with
               | |- context [0 <? ?x] => destruct (Z.ltb_spec 0 x)
               end; lia.
Qed.

Lemma get_breaks_on_completion ual validate :
  wp (W:=W) (get ual validate) breaks_on_completion.
Proof.
  unfold get. autounfold with methods.
  apply wp_bind, wp_invoke. intros [submitted|e]; cbv beta iota zeta.
  2: { split; [done|]. split; [by repeat constructor|].
       intros ? ? ? Hin. locate_event. }
  apply wp_bind. eapply wp_mono; [apply (retry_polled (fun _ => None))|].
  intros r t H. simpl in H.
  repeat match goal with
         | H : ex _ |- _ => destruct H as (? & ? & -> & H)
         | H : if unfinished ?o then _ else _ |- _ =>
             destruct (unfinished o) eqn:?
         | H : _ /\ _ |- _ => destruct H as [-> ->]
         end.
  all: try match goal with
           | |- context [res_bind ?o _] =>
               destruct o as [resp|e]; simpl;
               [unfold validate_operation_status;
                destruct (status resp) eqn:Hresp; simpl|]
           end.
  all: try (apply wp_bind, wp_lift; simpl).
  all: split; [done|]; split; [by repeat constructor|].
  all: intros i op resp' Hin Hst; locate_event.
  all: simpl in *; rewrite ?Hst in *; try discriminate.
  all: by rewrite ?app_nil_r.
Qed.

(** C9: in every run of [create], an allowance decrease is requested only
    when the mint raised a ContractLogicError; a mint that raises anything
    else is the last request of the run, right after the allowance
    increase, its exception is what the caller gets, and no allowance
    decrease is requested. *)
Theorem create_compensates_contract_rejection_only
    (w : W) (content : Content) (epochs_number : Z)
    (token_amount : option Z) (immutable : bool) (type : ContentType) :
  let r :=
    (run (create content epochs_number token_amount immutable type) w).1 in
  let t :=
    trace (run (create content epochs_number token_amount immutable type)
             w).2 in
  (forall spender amount o,
     In (EvDecreaseAllowance spender amount o) t ->
     exists a msg, In (EvCreateAsset a (Raise (ContractLogicError msg))) t) /\
  (forall a e,
     In (EvCreateAsset a (Raise e)) t ->
     is_ContractLogicError e = false ->
     r = Raise e /\
     (exists pre spender,
        t = (pre ++ [EvIncreaseAllowance spender (ca_tokenAmount a) (Ok tt);
                     EvCreateAsset a (Raise e)])%list) /\
     Forall (fun ev => is_decrease ev = false) t).
Proof.
  exact (wp_run _ _ w
           (create_compensates_only_rejection content epochs_number
              token_amount immutable type)).
Qed.

(** C3: in every run of [update] without a token amount, the amount of
    the update-asset-state transaction is the bid suggested for
    [epochsNumber - math.floor((now - startTime) / epochLength)] epochs,
    less the escrowed [tokensInfo[0]], floored at zero; it is never
    negative.  The floor is that of Python's true division, which is the
    floored quotient as long as the operands are below [2^53]. *)
Theorem update_token_amount_is_floored_bid_difference
    (w : W) (ual : UAL) (content : Content) (type : ContentType)
    (a : UpdateArgs) (o : res unit) :
  let t := trace (run (update ual content None type) w).2 in
  In (EvUpdateAssetState a o) t ->
  exists agreement_id agreement block quotient suggestion bid escrowed,
    In (EvGetServiceAgreementData agreement_id (Ok agreement)) t /\
    In (EvGetBlock "latest" (Ok block)) t /\
    truediv (timestamp block - startTime agreement)
      (epochLength agreement) = Ok quotient /\
    (Z.abs (timestamp block - startTime agreement) < 2 ^ 53 ->
     0 < epochLength agreement < 2 ^ 53 ->
     math_floor quotient
     = (timestamp block - startTime agreement) / epochLength agreement) /\
    In (EvBidSuggestion suggestion (Ok bid)) t /\
    bs_epochs_number suggestion
      = epochsNumber agreement - math_floor quotient /\
    tokensInfo agreement !! 0%nat = Some escrowed /\
    ua_update_token_amount a = Z.max 0 (bidSuggestion bid - escrowed) /\
    0 <= ua_update_token_amount a.
Proof.
  intros t Hin.
  destruct (wp_run _ (fun _ t => computes_token_amount t) w
              (update_computes_token_amount ual content type) a o Hin)
    as (agreement_id & agreement & block & quotient & suggestion & bid
        & escrowed & H1 & H2 & H3 & H4 & H5 & H6 & H7 & H8).
  exists agreement_id, agreement, block, quotient, suggestion, bid, escrowed.
  repeat split; try assumption.
  intros Hnum Hden.
  destruct (math_floor_truediv _ _ Hnum Hden) as (q & Hq & Hfloor).
  congruence.
Qed.

(** C4 (the code departs from it): no run of [get], validating or not,
    asks the ledger for the latest assertion id or returns a value, so the
    Merkle root is never compared with anything. *)
Theorem get_never_reaches_validation (w : W) (ual : UAL) (validate : bool) :
  Forall (fun e => is_latest_lookup e = false)
    (trace (run (get ual validate) w).2) /\
  is_Ok (run (get ual validate) w).1 = false.
Proof.
  destruct (wp_run _ _ w (get_breaks_on_completion ual validate))
    as (Hok & Hlookup & _).
  done.
Qed.

(** C5 (the code departs from it): in every run of [get], a Completed
    response of the node is the last event; the run then raises the
    TypeError of subscripting [None] and returns nothing. *)
Theorem get_fails_on_completed_operation
    (w : W) (ual : UAL) (validate : bool)
    (operation_id operation : string) (resp : OperationResult) :
  let r := (run (get ual validate) w).1 in
  let t := trace (run (get ual validate) w).2 in
  In (EvGetOperationResult operation_id operation (Ok resp)) t ->
  status resp = Completed ->
  r = Raise not_subscriptable /\
  last t = Some (EvGetOperationResult operation_id operation (Ok resp)).
Proof.
  destruct (wp_run _ _ w (get_breaks_on_completion ual validate))
    as (_ & _ & H).
  exact (H operation_id operation resp).
Qed.

(** C6: content whose public and private parts are both empty or absent
    is rejected with a ContentError.  The check is not in
    [_process_content] itself: the empty graph goes to [normalize_dataset],
    and it is the canonicalizer that yields no statement for it. *)
Theorem process_content_rejects_empty_content
    (content : Content) (type : ContentType) :
  present (public content) = false ->
  present (private content) = false ->
  (forall quads,
     jsonld_normalize (JObj [("@graph", JList [])]) type = Some quads ->
     quads = []) ->
  exists msg, _process_content content type = Raise (ContentError msg).
Proof.
  intros Hpub Hpriv Hempty.
  pose proof (given_present (public content)) as Hp.
  pose proof (given_present (private content)) as Hq.
  unfold _process_content.
  destruct (given (public content)); [congruence|].
  destruct (given (private content)); [congruence|].
  simpl. unfold normalize_dataset.
  destruct (jsonld_normalize _ type) as [quads|] eqn:Hn; [|by eexists].
  rewrite (Hempty quads eq_refl). by eexists.
Qed.

(** C7: for content with a private part, the private assertion is
    computed first; the public graph is the public content, when there is
    any, followed by exactly one statement that maps the reserved
    predicate to the private assertion id; the public assertion id is the
    Merkle root of the canonical form of that graph. *)
Theorem process_content_embeds_private_id
    (content : Content) (type : ContentType) (p : JSON) :
  given (private content) = Some p ->
  _process_content content type =
    (private_assertion <~ normalize_dataset p type ;;
     let private_assertion_id := merkle_root private_assertion in
     let public_graph :=
       (match given (public content) with
        | Some q => [q]
        | None => []
        end ++
        [JObj [(PRIVATE_ASSERTION_PREDICATE, JStr private_assertion_id)]])%list
     in
     public_assertion <~
       normalize_dataset (JObj [("@graph", JList public_graph)]) type ;;
     Ok {| a_public :=
             {| pub_id := merkle_root public_assertion;
                pub_content := public_assertion;
                pub_metadata :=
                  generate_assertion_metadata public_assertion |};
           a_private :=
             Some {| priv_id := private_assertion_id;
                     priv_content := private_assertion |} |}).
Proof.
  intros Hp. unfold _process_content. rewrite Hp.
  destruct (normalize_dataset p type) as [private_assertion|e]; done.
Qed.
End Claims.

(** ** Further properties of the engine *)

(** Turns a goal about a run into a postcondition of its program. *)
Ltac by_wp :=
  cbv zeta;
  match goal with
  | |- context [run ?m ?w] =>
      pattern (run m w).1, (trace (run m w).2); apply (wp_run m _ w)
  end.

(** Every event of a trace made of explicit events and of poll loops
    satisfies a predicate that the explicit events and the polls satisfy. *)
Ltac forall_trace :=
  unfold only in *;
  repeat first
    [ apply Forall_nil_2
    | apply Forall_cons_2; [by simpl|]
    | apply Forall_app_2
    | assumption
    | eapply Forall_impl; [eassumption|]; by intros [] ? ].

Lemma last_app_Some {A} (l1 l2 : list A) (x : A) :
  last l2 = Some x -> last (l1 ++ l2) = Some x.
Proof.
  intros H. destruct l2 as [|y l2]; [done|].
  rewrite last_app. by rewrite H.
Qed.

(** What a poll loop that returns has seen last: the response that it
    returns. *)
Definition answered (operation_id operation : string)
    (r : res OperationResult) (t : list event) : Prop :=
  Forall (is_poll operation_id operation) t /\
  forall x, r = Ok x ->
    last t = Some (EvGetOperationResult operation_id operation (Ok x)).

(** The requests that [create] can make, with the contract names and
    operation names that it uses. *)
Definition create_request (e : event) : Prop :=
  match e with
  | EvChainId _ | EvBidSuggestion _ _ | EvIncreaseAllowance _ _ _
  | EvDecreaseAllowance _ _ _ | EvCreateAsset _ _ | EvLocalStore _ _
  | EvPublish _ _ | EvSleep _ => True
  | EvGetAssetStorageAddress name _ => name = "ContentAssetStorage"
  | EvGetContractAddress name _ => name = "ServiceAgreementV1"
  | EvGetOperationResult _ operation _ =>
      operation = "local-store" \/ operation = "publish"
  | _ => False
  end.

(** The requests that [update] can make. *)
Definition update_request (e : event) : Prop :=
  match e with
  | EvChainId _ | EvGetServiceAgreementData _ _ | EvBidSuggestion _ _
  | EvUpdateAssetState _ _ | EvLocalStore _ _ | EvUpdate _ _
  | EvSleep _ => True
  | EvGetAssertionIdByIndex _ index _ => index = 0
  | EvGetBlock tag _ => tag = "latest"
  | EvGetOperationResult _ operation _ =>
      operation = "local-store" \/ operation = "update"
  | _ => False
  end.

(** The requests that [get] can make for a locator. *)
Definition get_request (ual : UAL) (e : event) : Prop :=
  match e with
  | EvGet u hashFunctionId _ => u = ual /\ hashFunctionId = 1
  | EvSleep _ => True
  | EvGetOperationResult _ operation _ => operation = "get"
  | _ => False
  end.

Definition is_bid_or_update_state (e : event) : bool :=
  match e with
  | EvBidSuggestion _ _ | EvUpdateAssetState _ _ => true
  | _ => false
  end.

Definition is_update_state (e : event) : bool :=
  match e with EvUpdateAssetState _ _ => true | _ => false end.

Definition is_mint (e : event) : bool :=
  match e with EvCreateAsset _ _ => true | _ => false end.

Definition is_increase (e : event) : bool :=
  match e with EvIncreaseAllowance _ _ _ => true | _ => false end.

(** Two programs that do the same from every state. *)
Definition same_program {W A} (m m' : M W A) : Prop := forall s, m s = m' s.

Section Polls.
Context {W : Type}.
Context {ledger : BlockchainRequest.t W} {node : NodeRequest.t W}.
Context {clock : Clock W}.
Context {provider : BlockchainProvider} {utils : Utils}.

Lemma polled_answered operation_id operation n d b r t :
  polled (fun x => x) operation_id operation n d b r t ->
  answered operation_id operation r t.
Proof.
  revert d t. induction n as [|n IH]; intros d t; simpl.
  - intros [-> ->]. split; [constructor|done].
  - intros (o & t' & -> & H).
    destruct (unfinished o) eqn:Ho.
    + destruct (IH _ _ H) as [Hpoll Hlast]. split.
      * by repeat constructor.
      * intros x Hx. specialize (Hlast x Hx).
        destruct t' as [|e t']; [done|]. exact Hlast.
    + destruct H as [-> ->]. split; [by repeat constructor|].
      intros x. destruct o as [resp|e]; simpl; [|done].
      destruct (validate_operation_status resp); simpl; [|done].
      by intros [= ->].
Qed.

Lemma get_operation_result_answered operation_id operation :
  wp (W:=W) (get_operation_result operation_id operation)
     (answered operation_id operation).
Proof.
  eapply wp_mono; [apply (retry_polled (fun x => x))|].
  intros r t. apply polled_answered.
Qed.


(** A retried function whose attempts emit only events of one kind, and
    return only values of one kind, is a loop that does the same. *)
Lemma retry_returns {A} (P : event -> Prop) (R : A -> Prop)
    catch n d b (func : M W A) :
  (forall d', P (EvSleep d')) ->
  wp func (fun r t => Forall P t /\ forall a, r = Ok a -> R a) ->
  wp (retry catch n d b func)
     (fun r t => Forall P t /\ forall a, r = Ok a -> R a).
Proof.
  intros Hs Hf. revert d. induction n as [|n IH]; intros d; simpl.
  - apply wp_raise. split; [constructor|done].
  - apply wp_bind, wp_time_sleep, wp_try_except.
    eapply wp_mono; [exact Hf|]. intros [a|e] t [Ht Ha].
    + split; [by constructor|done].
    + destruct (catch e).
      * eapply wp_mono; [apply IH|]. intros r' t' [Ht' Ha'].
        split; [|done]. constructor; [done|]. by apply Forall_app_2.
      * apply wp_raise. split; [|done].
        constructor; [done|]. by rewrite app_nil_r.
Qed.

Lemma same_program_refl {A} (m : M W A) : same_program m m.
Proof. by intros s. Qed.

Lemma same_program_bind {A B} (m m' : M W A) (k k' : A -> M W B) :
  same_program m m' -> (forall a, same_program (k a) (k' a)) ->
  same_program (bind m k) (bind m' k').
Proof.
  intros Hm Hk s. unfold bind. rewrite Hm.
  destruct (m' s) as [[a|e] s']; [apply Hk|done].
Qed.

Lemma same_program_bind_returned {A B} (R : A -> Prop) (m : M W A)
    (k k' : A -> M W B) :
  wp m (fun r _ => forall a, r = Ok a -> R a) ->
  (forall a, R a -> same_program (k a) (k' a)) ->
  same_program (bind m k) (bind m k').
Proof.
  intros Hm Hk s. unfold bind.
  destruct (Hm s) as (t & _ & Ha).
  destruct (m s) as [[a|e] s']; [|done]. apply Hk, Ha. done.
Qed.

Lemma filter_none (f : event -> bool) (t : list event) :
  Forall (fun e => f e = false) t -> List.filter f t = [].
Proof.
  induction 1 as [|e t He _ IH]; simpl; [done|]. by rewrite He.
Qed.
End Polls.

(** As [wp_step], with poll loops that tell which response they
    returned. *)
Ltac wp_step_answered :=
  lazymatch goal with
  | |- wp (get_operation_result ?i ?o) _ =>
      eapply wp_mono; [apply (get_operation_result_answered i o)|];
      intros [?|?] ? [? ?]; cbv beta iota zeta
  | _ => wp_step
  end.

Section Further.
Context {W : Type}.
Context {ledger : BlockchainRequest.t W} {node : NodeRequest.t W}.
Context {clock : Clock W}.
Context {provider : BlockchainProvider} {utils : Utils}.

(** X1: without a token amount, [create] pays what the node suggests: the
    amount of every allowance increase and of every mint is the bid that
    the node returned for the public assertion of the content, its size,
    the number of epochs, the storage contract and hash function 1, on the
    chain that the table of networks names for the ledger's chain id. *)
Theorem create_pays_the_suggested_bid
    (w : W) (content : Content) (epochs_number : Z) (immutable : bool)
    (type : ContentType) :
  let t := trace (run (create content epochs_number None immutable type)
                    w).2 in
  forall amount,
    (exists spender o, In (EvIncreaseAllowance spender amount o) t) \/
    (exists a o, In (EvCreateAsset a o) t /\ ca_tokenAmount a = amount) ->
    exists assertions chain chain_name storage bid,
      _process_content content type = Ok assertions /\
      In (EvChainId (Ok chain)) t /\
      SUPPORTED_NETWORKS !! chain = Some chain_name /\
      In (EvGetAssetStorageAddress "ContentAssetStorage" (Ok storage)) t /\
      In (EvBidSuggestion
            {| bs_blockchain := chain_name;
               bs_epochs_number := epochs_number;
               bs_size := size (pub_metadata (a_public assertions));
               bs_contract := storage;
               bs_assertion_id := pub_id (a_public assertions);
               bs_hash_function_id := 1 |} (Ok bid)) t /\
      amount = bidSuggestion bid.
Proof.
  by_wp. unfold create, getitem_SUPPORTED_NETWORKS.
  autounfold with methods.
  repeat wp_step.
  all: intros amount [(? & ? & Hin)|(? & ? & Hin & <-)]; locate_event.
  all: destruct (SUPPORTED_NETWORKS !! _) eqn:?; simplify_eq.
  all: eexists _, _, _, _, _.
  all: repeat (split;
               [first [reflexivity | eassumption | simpl; by eauto 15]|]).
  all: reflexivity.
Qed.

(** X2: content that cannot be processed costs nothing: [create] and [update]
    raise before any request is made, and leave the world as it was. *)
Theorem unprocessable_content_makes_no_request
    (w : W) (ual : UAL) (content : Content) (epochs_number : Z)
    (token_amount : option Z) (immutable : bool) (type : ContentType)
    (e : exn) :
  _process_content content type = Raise e ->
  run (create content epochs_number token_amount immutable type) w
    = (Raise e, {| world := w; trace := [] |}) /\
  run (update ual content token_amount type) w
    = (match parse_ual ual with
       | Ok _ => Raise e
       | Raise malformed => Raise malformed
       end, {| world := w; trace := [] |}).
Proof.
  intros H. unfold run, create, update, bind, lift. rewrite H.
  split; [done|]. by destruct (parse_ual ual).
Qed.

(** X3: a chain id that the table of networks does not know stops [create]
    and [update] with a KeyError right after the chain-id request, which is
    their only request. *)
Theorem unknown_chain_stops_after_chain_id
    (w : W) (ual : UAL) (content : Content) (epochs_number : Z)
    (token_amount : option Z) (immutable : bool) (type : ContentType)
    (chain : Z) :
  SUPPORTED_NETWORKS !! chain = None ->
  (In (EvChainId (Ok chain))
      (trace (run (create content epochs_number token_amount immutable type)
                w).2) ->
   (exists key,
      (run (create content epochs_number token_amount immutable type) w).1
      = Raise (KeyError key)) /\
   trace (run (create content epochs_number token_amount immutable type) w).2
   = [EvChainId (Ok chain)]) /\
  (In (EvChainId (Ok chain))
      (trace (run (update ual content token_amount type) w).2) ->
   (exists key,
      (run (update ual content token_amount type) w).1
      = Raise (KeyError key)) /\
   trace (run (update ual content token_amount type) w).2
   = [EvChainId (Ok chain)]).
Proof.
  intros Hchain. split.
  - by_wp. unfold create, getitem_SUPPORTED_NETWORKS.
    autounfold with methods. repeat wp_step.
    all: intros Hin; locate_event.
    all: try (rewrite Hchain in *; simplify_eq).
    all: by eauto.
  - by_wp. unfold update, get_agreement_id, getitem_SUPPORTED_NETWORKS.
    autounfold with methods. repeat wp_step.
    all: intros Hin; locate_event.
    all: try (rewrite Hchain in *; simplify_eq).
    all: by eauto.
Qed.

(** X4: once the mint has gone through, [create] never decreases the
    allowance, whatever fails afterwards. *)
Theorem create_keeps_allowance_after_mint
    (w : W) (content : Content) (epochs_number : Z)
    (token_amount : option Z) (immutable : bool) (type : ContentType)
    (a : CreateArgs) (receipt : TxReceipt) :
  let t :=
    trace (run (create content epochs_number token_amount immutable type)
             w).2 in
  In (EvCreateAsset a (Ok receipt)) t ->
  Forall (fun ev => is_decrease ev = false) t.
Proof.
  by_wp. unfold create. autounfold with methods. repeat wp_step.
  all: intros Hin; locate_event.
  all: forall_trace.
Qed.

(** X5: a receipt without a mint event: after a mint that went through,
    [create] raises IndexError when the decoded events are empty, and
    KeyError when the first event has no token id; the mint is then its
    last request, so that nothing is stored or published. *)
Theorem create_without_mint_event
    (w : W) (content : Content) (epochs_number : Z)
    (token_amount : option Z) (immutable : bool) (type : ContentType)
    (a : CreateArgs) (receipt : TxReceipt) (events : list EventData) :
  let r :=
    (run (create content epochs_number token_amount immutable type) w).1 in
  let t :=
    trace (run (create content epochs_number token_amount immutable type)
             w).2 in
  In (EvCreateAsset a (Ok receipt)) t ->
  decode_logs_event receipt "ContentAsset" "AssetMinted" = Ok events ->
  match events with
  | [] => r = Raise IndexError /\ last t = Some (EvCreateAsset a (Ok receipt))
  | ev :: _ =>
      args ev !! "tokenId" = None ->
      r = Raise (KeyError "tokenId") /\
      last t = Some (EvCreateAsset a (Ok receipt))
  end.
Proof.
  by_wp. unfold create, minted_token_id. autounfold with methods.
  repeat wp_step.
  all: intros Hin Hdec; locate_event.
  all: try match goal with
           | H1 : decode_logs_event ?r ?c ?n = Ok ?x,
             H2 : decode_logs_event ?r ?c ?n = Ok ?y |- _ =>
               lazymatch x with
               | y => fail
               | _ => assert (x = y) by congruence; subst
               end
           end.
  all: destruct events as [|ev events]; simplify_eq; simpl in *.
  all: try (intros Hev; rewrite Hev in *); simplify_eq.
  all: first [congruence | by split].
Qed.

(** X7: what [create] publishes is what it minted and stored: every publish
    request carries the public assertion of the content, whose id (as
    bytes) is the one of a mint that went through, the token id of the
    first event decoded from the receipt of that mint, and hash function
    1; every entry of the local store that went before it is for the same
    chain, contract and token. *)
Theorem create_publishes_what_it_minted
    (w : W) (content : Content) (epochs_number : Z)
    (token_amount : option Z) (immutable : bool) (type : ContentType)
    (pa : AssertionArgs) (o : res OperationId) :
  let t :=
    trace (run (create content epochs_number token_amount immutable type)
             w).2 in
  In (EvPublish pa o) t ->
  exists assertions ca receipt events l stored,
    _process_content content type = Ok assertions /\
    aa_assertion_id pa = pub_id (a_public assertions) /\
    aa_assertion pa = pub_content (a_public assertions) /\
    aa_hash_function_id pa = 1 /\
    In (EvCreateAsset ca (Ok receipt)) t /\
    ca_assertionId ca = Web3_to_bytes (aa_assertion_id pa) /\
    decode_logs_event receipt "ContentAsset" "AssetMinted" = Ok events /\
    minted_token_id events = Ok (aa_token_id pa) /\
    In (EvLocalStore l (Ok stored)) t /\
    Forall (fun entry =>
              se_blockchain entry = aa_blockchain pa /\
              se_contract entry = aa_contract pa /\
              se_tokenId entry = aa_token_id pa) l.
Proof.
  by_wp. unfold create. autounfold with methods. repeat wp_step.
  all: intros Hin; locate_event.
  all: eexists _, _, _, _, _, _.
  all: repeat (split;
               [first [reflexivity | eassumption | simpl; by eauto 15]|]).
  all: match goal with
       | H : assertions_list _ _ _ _ _ _ = Ok _ |- _ =>
           unfold assertions_list, getitem_private in H;
           repeat match type of H with
                  | context [match ?x with _ => _ end] => destruct x
                  end;
           simpl in H; simplify_eq
       end.
  all: by repeat constructor.
Qed.

(** X8: what [create] returns: a run that returns has ended on a response to
    a result request for the operation that its publish request opened; it
    returns the status of that response, the id of that operation, the id
    of the published assertion, and the locator formatted from the chain,
    contract and token of the publish request. *)
Theorem create_returns_the_published_asset
    (w : W) (content : Content) (epochs_number : Z)
    (token_amount : option Z) (immutable : bool) (type : ContentType)
    (result : AssetResult) :
  let r :=
    (run (create content epochs_number token_amount immutable type) w).1 in
  let t :=
    trace (run (create content epochs_number token_amount immutable type)
             w).2 in
  r = Ok result ->
  exists pa published response,
    In (EvPublish pa (Ok published)) t /\
    last t = Some (EvGetOperationResult (operationId published) "publish"
                     (Ok response)) /\
    result =
      {| r_UAL := format_ual (aa_blockchain pa) (aa_contract pa)
                    (aa_token_id pa);
         r_publicAssertionId := aa_assertion_id pa;
         r_operation := {| oi_operationId := operationId published;
                           oi_status := status response |} |}.
Proof.
  by_wp. unfold create. autounfold with methods. repeat wp_step_answered.
  all: intros Hr; simplify_eq.
  all: eexists _, _, _.
  all: split; [rewrite !in_app_iff; simpl; by eauto 20|].
  all: split; [|reflexivity].
  all: rewrite !app_nil_r; repeat apply last_app_Some; auto.
Qed.

(** X9: the requests of each operation: [create] sends no update-asset-state
    transaction and asks for no agreement or block; [update] never changes
    the allowance, mints or publishes; [get] makes one kind of request
    besides its polls, the Get submission with hash function 1, and none to
    the ledger. *)
Theorem operations_keep_to_their_requests
    (w : W) (ual : UAL) (content : Content) (epochs_number : Z)
    (token_amount : option Z) (immutable validate : bool)
    (type : ContentType) :
  Forall create_request
    (trace (run (create content epochs_number token_amount immutable type)
              w).2) /\
  Forall update_request
    (trace (run (update ual content token_amount type) w).2) /\
  Forall (get_request ual) (trace (run (get ual validate) w).2).
Proof.
  split; [|split].
  - apply (wp_run _ (only create_request)).
    unfold create. autounfold with methods.
    repeat only_step; simpl; auto.
  - apply (wp_run _ (only update_request)).
    unfold update, get_agreement_id. autounfold with methods.
    repeat only_step; simpl; auto.
  - by_wp. unfold get. autounfold with methods.
    apply wp_bind, wp_invoke. intros [submitted|e]; cbv beta iota zeta;
      [|by repeat constructor].
    apply wp_bind.
    eapply wp_mono;
      [apply (retry_returns (get_request ual) (fun a => a = None));
       [done|]|].
    + repeat wp_step; (split; [by repeat constructor|congruence]).
    + intros [a|e] t [Ht Ha]; [|forall_trace].
      rewrite (Ha a eq_refl). apply wp_bind, wp_lift. simpl.
      forall_trace.
Qed.

(** X11: [update] works on the asset that the locator names, on the chain of
    the ledger: its update-asset-state transaction is for the token id
    parsed from the locator and for the public assertion of the content,
    and the locator that it returns is formatted from the chain name that
    the table of networks gives for the ledger's chain id, not from the
    chain named in the locator, and from the contract and token parsed
    from the locator. *)
Theorem update_works_on_the_parsed_locator
    (w : W) (ual : UAL) (content : Content) (token_amount : option Z)
    (type : ContentType) :
  let r := (run (update ual content token_amount type) w).1 in
  let t := trace (run (update ual content token_amount type) w).2 in
  (forall a o,
     In (EvUpdateAssetState a o) t ->
     exists parsed assertions,
       parse_ual ual = Ok parsed /\
       _process_content content type = Ok assertions /\
       ua_token_id a = token_id parsed /\
       ua_assertion_id a = pub_id (a_public assertions) /\
       ua_size a = size (pub_metadata (a_public assertions)) /\
       ua_triples_number a
         = triples_number (pub_metadata (a_public assertions)) /\
       ua_chunks_number a
         = chunks_number (pub_metadata (a_public assertions))) /\
  (forall result,
     r = Ok result ->
     exists parsed chain chain_name,
       parse_ual ual = Ok parsed /\
       In (EvChainId (Ok chain)) t /\
       SUPPORTED_NETWORKS !! chain = Some chain_name /\
       r_UAL result
         = format_ual chain_name (contract_address parsed)
             (token_id parsed)).
Proof.
  by_wp. unfold update, get_agreement_id, getitem_SUPPORTED_NETWORKS.
  autounfold with methods. repeat wp_step.
  all: split; [intros ? ? Hin|intros ? Hr]; locate_event.
  all: destruct (SUPPORTED_NETWORKS !! _) eqn:?; simplify_eq.
  all: first [by eexists _, _ | eexists _, _, _].
  all: repeat (split;
               [first [reflexivity | eassumption | simpl; by eauto 15]|]).
  all: reflexivity.
Qed.

(** X12: the agreement that [update] reads, when it is given no token amount,
    is the one derived from the first assertion of the token: the id asked
    for is generated from the contract and token parsed from the locator
    and the keyword of that contract and of the assertion id at index 0. *)
Theorem update_reads_the_agreement_of_the_first_assertion
    (w : W) (ual : UAL) (content : Content) (token_amount : option Z)
    (type : ContentType) (agreement_id : HexStr) (o : res AgreementData) :
  let t := trace (run (update ual content token_amount type) w).2 in
  In (EvGetServiceAgreementData agreement_id o) t ->
  exists parsed first_assertion_id,
    parse_ual ual = Ok parsed /\
    In (EvGetAssertionIdByIndex (token_id parsed) 0 (Ok first_assertion_id))
      t /\
    agreement_id
      = generate_agreement_id (contract_address parsed) (token_id parsed)
          (generate_keyword (contract_address parsed) first_assertion_id).
Proof.
  by_wp. unfold update, get_agreement_id. autounfold with methods.
  repeat wp_step.
  all: intros Hin; locate_event.
  all: eexists _, _.
  all: repeat (split;
               [first [reflexivity | eassumption | simpl; by eauto 15]|]).
  all: reflexivity.
Qed.

(** X13: an agreement whose epoch length is 0 stops [update]: in a run that
    read such an agreement, no bid is asked for and no update-asset-state
    transaction is sent, and once the latest block is read the run raises
    ZeroDivisionError. *)
Theorem update_with_zero_epoch_length
    (w : W) (ual : UAL) (content : Content) (token_amount : option Z)
    (type : ContentType) (agreement_id : HexStr)
    (agreement : AgreementData) :
  let r := (run (update ual content token_amount type) w).1 in
  let t := trace (run (update ual content token_amount type) w).2 in
  In (EvGetServiceAgreementData agreement_id (Ok agreement)) t ->
  epochLength agreement = 0 ->
  Forall (fun e => is_bid_or_update_state e = false) t /\
  (forall tag block,
     In (EvGetBlock tag (Ok block)) t ->
     r = Raise ZeroDivisionError /\
     last t = Some (EvGetBlock tag (Ok block))).
Proof.
  by_wp. unfold update, get_agreement_id. autounfold with methods.
  repeat wp_step.
  all: intros Hin Hlen; locate_event.
  all: try match goal with
           | H : truediv _ (epochLength _) = _ |- _ =>
               rewrite Hlen in H; unfold truediv in H; simpl in H
           end.
  all: simplify_eq.
  all: split; [forall_trace|intros ? ? Hin; locate_event; by split].
Qed.

(** X14: an agreement without token amounts stops [update]: in a run that read
    an agreement whose [tokensInfo] is empty, no update-asset-state
    transaction is sent, and the bid suggestion, once obtained, is the
    last request before the run raises IndexError. *)
Theorem update_with_no_escrowed_amount
    (w : W) (ual : UAL) (content : Content) (token_amount : option Z)
    (type : ContentType) (agreement_id : HexStr)
    (agreement : AgreementData) :
  let r := (run (update ual content token_amount type) w).1 in
  let t := trace (run (update ual content token_amount type) w).2 in
  In (EvGetServiceAgreementData agreement_id (Ok agreement)) t ->
  tokensInfo agreement = [] ->
  Forall (fun e => is_update_state e = false) t /\
  (forall suggestion bid,
     In (EvBidSuggestion suggestion (Ok bid)) t ->
     r = Raise IndexError /\
     last t = Some (EvBidSuggestion suggestion (Ok bid))).
Proof.
  by_wp. unfold update, get_agreement_id, getitem_tokensInfo_0.
  autounfold with methods. repeat wp_step.
  all: intros Hin Hinfo; locate_event.
  all: try match goal with
           | H : context [tokensInfo _ !! _] |- _ =>
               rewrite Hinfo in H; simpl in H
           end.
  all: simplify_eq.
  all: split; [forall_trace|intros ? ? Hin; locate_event; by split].
Qed.

(** X17: [get] does the same with and without validation: the result, the
    requests and the world after it are the same. *)
Theorem get_ignores_validate (w : W) (ual : UAL) :
  run (get ual true) w = run (get ual false) w.
Proof.
  unfold run, get.
  apply same_program_bind; [apply same_program_refl|intros submitted].
  cbv zeta.
  apply (same_program_bind_returned (fun a => a = None)).
  - eapply wp_mono;
      [apply (retry_returns (fun _ => True) (fun a => a = None)); [done|]|].
    + autounfold with methods. repeat wp_step.
      all: split; [by repeat constructor|congruence].
    + by intros r t [_ Ha].
  - by intros a -> s.
Qed.

(** X18: the assertions that [_process_content] builds are content addressed:
    the id of each is the Merkle root of its own statements, the metadata
    are those of the public statements, and there is a private assertion
    exactly when the content has a private part, of which it holds the
    canonical form. *)
Theorem processed_assertions_are_content_addressed
    (content : Content) (type : ContentType) (assertions : Assertions) :
  _process_content content type = Ok assertions ->
  pub_id (a_public assertions)
    = merkle_root (pub_content (a_public assertions)) /\
  pub_metadata (a_public assertions)
    = generate_assertion_metadata (pub_content (a_public assertions)) /\
  match a_private assertions with
  | Some pr =>
      priv_id pr = merkle_root (priv_content pr) /\
      exists p, given (private content) = Some p /\
                normalize_dataset p type = Ok (priv_content pr)
  | None => given (private content) = None
  end.
Proof.
  unfold _process_content. intros H.
  destruct (given (private content)) as [p|]; simpl in H.
  - destruct (normalize_dataset p type) as [q|e] eqn:Hq; simpl in H; [|done].
    match type of H with
    | context [normalize_dataset ?g type] =>
        destruct (normalize_dataset g type); simpl in H; [|done]
    end.
    injection H as <-. simpl. repeat split; eauto.
  - destruct (normalize_dataset _ type); simpl in H; [|done].
    by injection H as <-.
Qed.

(** X19: an empty part is an absent part: two contents whose public parts, and
    whose private parts, are the same once the false values ([None], the
    empty dictionary, string or list, 0 and [False]) are left out make
    [create] and [update] run the same. *)
Theorem empty_parts_are_absent_parts
    (w : W) (ual : UAL) (c1 c2 : Content) (epochs_number : Z)
    (token_amount : option Z) (immutable : bool) (type : ContentType) :
  given (public c1) = given (public c2) ->
  given (private c1) = given (private c2) ->
  run (create c1 epochs_number token_amount immutable type) w
    = run (create c2 epochs_number token_amount immutable type) w /\
  run (update ual c1 token_amount type) w
    = run (update ual c2 token_amount type) w.
Proof.
  intros Hpub Hpriv.
  assert (_process_content c1 type = _process_content c2 type) as Hp.
  { unfold _process_content. by rewrite Hpub, Hpriv. }
  assert (forall a chain storage token st,
            assertions_list c1 a chain storage token st
            = assertions_list c2 a chain storage token st) as Hl.
  { intros. unfold assertions_list. by rewrite Hpriv. }
  split; unfold run.
  - unfold create. rewrite Hp.
    repeat (apply same_program_bind; [apply same_program_refl|intros ?]).
    rewrite Hl.
    repeat (apply same_program_bind; [apply same_program_refl|intros ?]).
    apply same_program_refl.
  - unfold update.
    apply same_program_bind; [apply same_program_refl|intros ?].
    rewrite Hp.
    repeat (apply same_program_bind; [apply same_program_refl|intros ?]).
    rewrite Hl.
    repeat (apply same_program_bind; [apply same_program_refl|intros ?]).
    apply same_program_refl.
Qed.

(** X10: no call pays twice: a run of [create] holds at most one allowance
    increase, one mint and one allowance decrease, and a run of [update]
    at most one update-asset-state transaction. *)
Theorem ledger_writes_happen_at_most_once
    (w : W) (ual : UAL) (content : Content) (epochs_number : Z)
    (token_amount : option Z) (immutable : bool) (type : ContentType) :
  (let t :=
     trace (run (create content epochs_number token_amount immutable type)
              w).2 in
   (length (List.filter is_increase t) <= 1)%nat /\
   (length (List.filter is_mint t) <= 1)%nat /\
   (length (List.filter is_decrease t) <= 1)%nat) /\
  (length (List.filter is_update_state
             (trace (run (update ual content token_amount type) w).2))
   <= 1)%nat.
Proof.
  split.
  - by_wp. unfold create. autounfold with methods. repeat wp_step.
    all: rewrite ?List.filter_app, ?length_app; simpl.
    all: repeat match goal with
                | H : only _ _ ?t |- context [List.filter ?f ?t] =>
                    rewrite (filter_none f t)
                      by (eapply Forall_impl; [exact H|]; by intros [] ?)
                end.
    all: simpl; lia.
  - by_wp. unfold update, get_agreement_id. autounfold with methods.
    repeat wp_step.
    all: rewrite ?List.filter_app, ?length_app; simpl.
    all: repeat match goal with
                | H : only _ _ ?t |- context [List.filter ?f ?t] =>
                    rewrite (filter_none f t)
                      by (eapply Forall_impl; [exact H|]; by intros [] ?)
                end.
    all: simpl; lia.
Qed.

(** X6: [create] never mints on credit: every mint request comes in a run
    that has increased, with success, the allowance of the address
    obtained for the service-agreement contract by the token amount of the
    mint; the mint is for the public assertion of the content, with the
    epochs and the immutability that the caller gave and score function
    1. *)
Theorem create_mints_the_processed_assertion
    (w : W) (content : Content) (epochs_number : Z)
    (token_amount : option Z) (immutable : bool) (type : ContentType)
    (a : CreateArgs) (o : res TxReceipt) :
  let t :=
    trace (run (create content epochs_number token_amount immutable type)
             w).2 in
  In (EvCreateAsset a o) t ->
  exists spender assertions,
    In (EvGetContractAddress "ServiceAgreementV1" (Ok spender)) t /\
    In (EvIncreaseAllowance spender (ca_tokenAmount a) (Ok tt)) t /\
    _process_content content type = Ok assertions /\
    a = {| ca_assertionId := Web3_to_bytes (pub_id (a_public assertions));
           ca_size := size (pub_metadata (a_public assertions));
           ca_triplesNumber :=
             triples_number (pub_metadata (a_public assertions));
           ca_chunksNumber :=
             chunks_number (pub_metadata (a_public assertions));
           ca_tokenAmount := ca_tokenAmount a;
           ca_epochsNumber := epochs_number;
           ca_scoreFunctionId := 1;
           ca_immutable_ := immutable |}.
Proof.
  by_wp. unfold create. autounfold with methods. repeat wp_step.
  all: intros Hin; locate_event.
  all: repeat match goal with u : unit |- _ => destruct u end.
  all: eexists _, _.
  all: repeat (split;
               [first [reflexivity | eassumption | simpl; by eauto 15]|]).
  all: reflexivity.
Qed.

(** X15: what [update] announces to the network is what it wrote on the
    ledger: every Update request of a run carries the public assertion of
    the content and hash function 1, and comes after an update-asset-state
    transaction that went through for the same token and assertion id and
    after a local store that was accepted. *)
Theorem update_announces_what_it_wrote
    (w : W) (ual : UAL) (content : Content) (token_amount : option Z)
    (type : ContentType) (pa : AssertionArgs) (o : res OperationId) :
  let t := trace (run (update ual content token_amount type) w).2 in
  In (EvUpdate pa o) t ->
  exists assertions ua l stored,
    _process_content content type = Ok assertions /\
    aa_assertion_id pa = pub_id (a_public assertions) /\
    aa_assertion pa = pub_content (a_public assertions) /\
    aa_hash_function_id pa = 1 /\
    In (EvUpdateAssetState ua (Ok tt)) t /\
    ua_token_id ua = aa_token_id pa /\
    ua_assertion_id ua = aa_assertion_id pa /\
    In (EvLocalStore l (Ok stored)) t.
Proof.
  by_wp. unfold update, get_agreement_id. autounfold with methods.
  repeat wp_step.
  all: intros Hin; locate_event.
  all: repeat match goal with u : unit |- _ => destruct u end.
  all: eexists _, _, _, _.
  all: repeat (split;
               [first [reflexivity | eassumption | simpl; by eauto 15]|]).
  all: simpl; by eauto 15.
Qed.

(** X16: what [update] returns: a run that returns has ended on a response to
    a result request for the operation that its Update request opened; it
    returns the status of that response, the id of that operation and the
    id of the announced assertion. *)
Theorem update_returns_the_announced_asset
    (w : W) (ual : UAL) (content : Content) (token_amount : option Z)
    (type : ContentType) (result : AssetResult) :
  let r := (run (update ual content token_amount type) w).1 in
  let t := trace (run (update ual content token_amount type) w).2 in
  r = Ok result ->
  exists pa announced response,
    In (EvUpdate pa (Ok announced)) t /\
    last t = Some (EvGetOperationResult (operationId announced) "update"
                     (Ok response)) /\
    result =
      {| r_UAL := format_ual (aa_blockchain pa) (aa_contract pa)
                    (aa_token_id pa);
         r_publicAssertionId := aa_assertion_id pa;
         r_operation := {| oi_operationId := operationId announced;
                           oi_status := status response |} |}.
Proof.
  by_wp. unfold update, get_agreement_id. autounfold with methods.
  repeat wp_step_answered.
  all: intros Hr; simplify_eq.
  all: eexists _, _, _.
  all: split; [rewrite !in_app_iff; simpl; by eauto 20|].
  all: split; [|reflexivity].
  all: rewrite !app_nil_r; repeat apply last_app_Some; auto.
Qed.
End Further.

(** ** The engine on the scripted world *)

#[local] Existing Instance script_ledger.
#[local] Existing Instance script_node.
#[local] Existing Instance script_clock.
#[local] Existing Instance script_provider.
#[local] Existing Instance script_utils.


(** The end-to-end example of the specification. *)
Example create_end_to_end :
  (run (create example_content 2 None false JSON_LD) prompt_world).1
  = Ok {| r_UAL := "otp:0xStorage:7";
          r_publicAssertionId := "0x0:<@id> ex:1";
          r_operation := {| oi_operationId := "op-publish";
                            oi_status := Completed |} |}.
Proof. vm_compute. reflexivity. Qed.

(** A Get operation that completes: [get] raises the TypeError, whether
    it validates or not, whether the Merkle root matches (the empty
    statement list of [prompt_world]) or not ([serving_world]). *)
Example get_on_completed_operations :
  (run (get "otp:0xStorage:7" true) prompt_world).1
    = Raise not_subscriptable /\
  (run (get "otp:0xStorage:7" true) serving_world).1
    = Raise not_subscriptable /\
  (run (get "otp:0xStorage:7" false) serving_world).1
    = Raise not_subscriptable.
Proof. vm_compute. auto. Qed.

Lemma create_rolls_back_allowance_witness :
  exists pre spender o,
    trace (run (create example_content 2 None false JSON_LD)
             rejecting_world).2
    = (pre ++
       [EvIncreaseAllowance spender (ca_tokenAmount example_mint) (Ok tt);
        EvCreateAsset example_mint
          (Raise (ContractLogicError "execution reverted"));
        EvDecreaseAllowance spender (ca_tokenAmount example_mint) o])%list /\
    In (EvGetContractAddress "ServiceAgreementV1" (Ok spender)) pre /\
    (o = Ok tt ->
     (run (create example_content 2 None false JSON_LD) rejecting_world).1
     = Raise (ContractLogicError "execution reverted")).
Proof.
  apply (create_rolls_back_allowance rejecting_world example_content 2 None
           false JSON_LD example_mint "execution reverted").
  vm_compute. auto 10.
Defined.

Lemma get_operation_result_retry_policy_witness :
  (length
     (polls (trace (run (get_operation_result "op-publish" "publish")
                      stalled_world).2)) = 5%nat /\
   delays (trace (run (get_operation_result "op-publish" "publish")
                    stalled_world).2) = [1; 2; 4; 8; 16] /\
   exists msg,
     (run (get_operation_result "op-publish" "publish") stalled_world).1
     = Raise (OperationNotFinished msg)) /\
  ((run (get_operation_result "op-get" "get") serving_world).1 = Ok served /\
   last (trace (run (get_operation_result "op-get" "get") serving_world).2)
   = Some (EvGetOperationResult "op-get" "get" (Ok served))) /\
  ((exists msg,
      (run (get_operation_result "op-publish" "publish") failing_world).1
      = Raise (OperationFailed msg)) /\
   last (trace (run (get_operation_result "op-publish" "publish")
                  failing_world).2)
   = Some (EvGetOperationResult "op-publish" "publish" (Ok failure))).
Proof.
  split; [|split].
  - apply (get_operation_result_retry_policy stalled_world
             "op-publish" "publish").
    vm_compute. repeat constructor; by eexists.
  - apply (get_operation_result_retry_policy serving_world "op-get" "get").
    + vm_compute. auto.
    + reflexivity.
  - apply (get_operation_result_retry_policy failing_world
             "op-publish" "publish").
    + vm_compute. auto.
    + reflexivity.
Defined.

Lemma create_compensates_contract_rejection_only_witness :
  (exists a msg,
     In (EvCreateAsset a (Raise (ContractLogicError msg)))
       (trace (run (create example_content 2 None false JSON_LD)
                 rejecting_world).2)) /\
  ((run (create example_content 2 None false JSON_LD) unreachable_world).1
   = Raise (OtherError "ConnectionError" "no route to host") /\
   (exists pre spender,
      trace (run (create example_content 2 None false JSON_LD)
               unreachable_world).2
      = (pre ++
         [EvIncreaseAllowance spender (ca_tokenAmount example_mint) (Ok tt);
          EvCreateAsset example_mint
            (Raise (OtherError "ConnectionError" "no route to host"))])%list)
   /\
   Forall (fun ev => is_decrease ev = false)
     (trace (run (create example_content 2 None false JSON_LD)
               unreachable_world).2)).
Proof.
  split.
  - apply (create_compensates_contract_rejection_only rejecting_world
             example_content 2 None false JSON_LD) with "0xAgreement" 100
                                                        (Ok tt).
    vm_compute. auto 10.
  - apply (create_compensates_contract_rejection_only unreachable_world
             example_content 2 None false JSON_LD).
    + vm_compute. auto 10.
    + reflexivity.
Defined.

Lemma update_token_amount_is_floored_bid_difference_witness :
  exists agreement_id agreement block quotient suggestion bid escrowed,
    In (EvGetServiceAgreementData agreement_id (Ok agreement))
      (trace (run (update "otp:0xStorage:7" example_content None JSON_LD)
                prompt_world).2) /\
    In (EvGetBlock "latest" (Ok block))
      (trace (run (update "otp:0xStorage:7" example_content None JSON_LD)
                prompt_world).2) /\
    truediv (timestamp block - startTime agreement)
      (epochLength agreement) = Ok quotient /\
    (Z.abs (timestamp block - startTime agreement) < 2 ^ 53 ->
     0 < epochLength agreement < 2 ^ 53 ->
     math_floor quotient
     = (timestamp block - startTime agreement) / epochLength agreement) /\
    In (EvBidSuggestion suggestion (Ok bid))
      (trace (run (update "otp:0xStorage:7" example_content None JSON_LD)
                prompt_world).2) /\
    bs_epochs_number suggestion
      = epochsNumber agreement - math_floor quotient /\
    tokensInfo agreement !! 0%nat = Some escrowed /\
    ua_update_token_amount example_update
      = Z.max 0 (bidSuggestion bid - escrowed) /\
    0 <= ua_update_token_amount example_update.
Proof.
  apply (update_token_amount_is_floored_bid_difference prompt_world
           "otp:0xStorage:7" example_content JSON_LD example_update (Ok tt)).
  vm_compute. auto 10.
Defined.

Lemma get_fails_on_completed_operation_witness :
  (run (get "otp:0xStorage:7" true) serving_world).1
    = Raise not_subscriptable /\
  last (trace (run (get "otp:0xStorage:7" true) serving_world).2)
    = Some (EvGetOperationResult "op-get" "get" (Ok served)).
Proof.
  apply (get_fails_on_completed_operation serving_world "otp:0xStorage:7"
           true "op-get" "get" served).
  - vm_compute. auto.
  - reflexivity.
Defined.

Lemma process_content_rejects_empty_content_witness :
  exists msg, _process_content empty_content JSON_LD = Raise (ContentError msg).
Proof.
  apply (process_content_rejects_empty_content empty_content JSON_LD).
  - reflexivity.
  - reflexivity.
  - intros quads H. vm_compute in H. by injection H as <-.
Defined.

Lemma process_content_embeds_private_id_witness :
  _process_content private_content JSON_LD =
    (private_assertion <~
       normalize_dataset (JObj [("secret", JStr "s")]) JSON_LD ;;
     let private_assertion_id := merkle_root private_assertion in
     let public_graph :=
       (match given (public private_content) with
        | Some q => [q]
        | None => []
        end ++
        [JObj [(PRIVATE_ASSERTION_PREDICATE, JStr private_assertion_id)]])%list
     in
     public_assertion <~
       normalize_dataset (JObj [("@graph", JList public_graph)]) JSON_LD ;;
     Ok {| a_public :=
             {| pub_id := merkle_root public_assertion;
                pub_content := public_assertion;
                pub_metadata :=
                  generate_assertion_metadata public_assertion |};
           a_private :=
             Some {| priv_id := private_assertion_id;
                     priv_content := private_assertion |} |}).
Proof.
  apply (process_content_embeds_private_id private_content JSON_LD
           (JObj [("secret", JStr "s")])).
  reflexivity.
Defined.

(** What processing [private_content] yields on the scripted world. *)
Definition private_assertions : Assertions :=
  {| a_public :=
       {| pub_id :=
            "0x0:<@id> ex:1|1:<https://ontology.origintrail.io/dkg/1.0#privateAssertionID> 0x0:<secret> s";
          pub_content :=
            ["<@id> ex:1";
             "<https://ontology.origintrail.io/dkg/1.0#privateAssertionID> 0x0:<secret> s"];
          pub_metadata :=
            {| size := 86; triples_number := 2; chunks_number := 1 |} |};
     a_private :=
       Some {| priv_id := "0x0:<secret> s";
               priv_content := ["<secret> s"] |} |}.

(** The mint and the update-asset-state transaction of [private_content]
    on the scripted world. *)
Definition private_mint : CreateArgs :=
  {| ca_assertionId := [];
     ca_size := 86;
     ca_triplesNumber := 2;
     ca_chunksNumber := 1;
     ca_tokenAmount := 100;
     ca_epochsNumber := 2;
     ca_scoreFunctionId := 1;
     ca_immutable_ := false |}.

Definition private_update : UpdateArgs :=
  {| ua_token_id := 7;
     ua_assertion_id := pub_id (a_public private_assertions);
     ua_size := 86;
     ua_triples_number := 2;
     ua_chunks_number := 1;
     ua_update_token_amount := 0 |}.

Lemma local_store_tags_assertions_witness :
  _process_content private_content JSON_LD = Ok private_assertions /\
  (exists o,
     In (EvLocalStore
           [{| se_blockchain := "otp";
               se_contract := "0xStorage";
               se_tokenId := 7;
               se_assertionId := pub_id (a_public private_assertions);
               se_assertion := pub_content (a_public private_assertions);
               se_storeType := TRIPLE |};
            {| se_blockchain := "otp";
               se_contract := "0xStorage";
               se_tokenId := 7;
               se_assertionId := "0x0:<secret> s";
               se_assertion := ["<secret> s"];
               se_storeType := TRIPLE |}] o)
       (trace (run (create private_content 2 None false JSON_LD)
                 prompt_world).2)) /\
  (exists o,
     In (EvLocalStore
           [{| se_blockchain := "otp";
               se_contract := "0xStorage";
               se_tokenId := 7;
               se_assertionId := pub_id (a_public private_assertions);
               se_assertion := pub_content (a_public private_assertions);
               se_storeType := PENDING |};
            {| se_blockchain := "otp";
               se_contract := "0xStorage";
               se_tokenId := 7;
               se_assertionId := "0x0:<secret> s";
               se_assertion := ["<secret> s"];
               se_storeType := PENDING |}] o)
       (trace (run (update "otp:0xStorage:7" private_content None JSON_LD)
                 prompt_world).2)) /\
  (exists o,
     In (EvLocalStore
           [{| se_blockchain := "otp";
               se_contract := "0xStorage";
               se_tokenId := 7;
               se_assertionId := "0x0:<@id> ex:1";
               se_assertion := ["<@id> ex:1"];
               se_storeType := TRIPLE |}] o)
       (trace (run (create example_content 2 None false JSON_LD)
                 prompt_world).2)) /\
  Forall (stores_as TRIPLE private_content JSON_LD)
    (trace (run (create private_content 2 None false JSON_LD)
              prompt_world).2) /\
  Forall (stores_as PENDING private_content JSON_LD)
    (trace (run (update "otp:0xStorage:7" private_content None JSON_LD)
              prompt_world).2).
Proof.
  destruct (local_store_tags_assertions prompt_world "otp:0xStorage:7"
              private_content 2 None false JSON_LD)
    as (Hcreate & Hupdate & Hcreated & Hupdated).
  destruct (local_store_tags_assertions prompt_world "otp:0xStorage:7"
              example_content 2 None false JSON_LD)
    as (_ & _ & Hpublic & _).
  split; [reflexivity|].
  split; [|split; [|split; [|by split]]].
  - apply (Hcreated private_assertions 2043 "otp" "0xStorage" private_mint
             JNull [{| args := {[ "tokenId" := 7 ]} |}] 7).
    + reflexivity.
    + vm_compute. auto 10.
    + reflexivity.
    + vm_compute. auto 10.
    + vm_compute. auto 10.
    + reflexivity.
    + reflexivity.
  - apply (Hupdated private_assertions
             {| blockchain := "otp";
                contract_address := "0xStorage";
                token_id := 7 |}
             2043 "otp" private_update).
    + reflexivity.
    + reflexivity.
    + vm_compute. auto 10.
    + reflexivity.
    + vm_compute. auto 10.
  - apply (Hpublic
             {| a_public :=
                  {| pub_id := "0x0:<@id> ex:1";
                     pub_content := ["<@id> ex:1"];
                     pub_metadata :=
                       {| size := 10;
                          triples_number := 1;
                          chunks_number := 1 |} |};
                a_private := None |}
             2043 "otp" "0xStorage" example_mint JNull
             [{| args := {[ "tokenId" := 7 ]} |}] 7).
    + reflexivity.
    + vm_compute. auto 10.
    + reflexivity.
    + vm_compute. auto 10.
    + vm_compute. auto 10.
    + reflexivity.
    + reflexivity.
Defined.

(** ** Further runs on the scripted world *)

(** A provider that knows no network. *)
Definition stray_provider : BlockchainProvider := {|
  SUPPORTED_NETWORKS := ∅;
  decode_logs_event _ _ _ := Ok [];
|}.

(** A provider that finds no event in a receipt. *)
Definition eventless_provider : BlockchainProvider := {|
  SUPPORTED_NETWORKS := {[ 2043 := "otp" ]};
  decode_logs_event _ _ _ := Ok [];
|}.

(** A world whose agreement has epochs of length 0. *)
Definition timeless_world : Script :=
  {| mint_outcome := Ok JNull;
     decrease_outcome := Ok tt;
     answers := [];
     latest_timestamp := 1250;
     agreement := {| startTime := 1000; epochsNumber := 5;
                     epochLength := 0; tokensInfo := [250] |};
     suggested_bid := 100 |}.

(** A world whose agreement has no token amounts. *)
Definition unfunded_world : Script :=
  {| mint_outcome := Ok JNull;
     decrease_outcome := Ok tt;
     answers := [];
     latest_timestamp := 1250;
     agreement := {| startTime := 1000; epochsNumber := 5;
                     epochLength := 100; tokensInfo := [] |};
     suggested_bid := 100 |}.

Definition example_publish : AssertionArgs :=
  {| aa_assertion_id := "0x0:<@id> ex:1";
     aa_assertion := ["<@id> ex:1"];
     aa_blockchain := "otp";
     aa_contract := "0xStorage";
     aa_token_id := 7;
     aa_hash_function_id := 1 |}.

Definition hollow_content : Content :=
  {| public := Some (JObj [("@id", JStr "ex:1"); ("name", JStr "A")]);
     private := Some (JObj []) |}.

Definition prompt_create : res AssetResult * state Script :=
  run (create example_content 2 None false JSON_LD) prompt_world.

Definition prompt_update : res AssetResult * state Script :=
  run (update "otp:0xStorage:7" example_content None JSON_LD) prompt_world.

Lemma create_pays_the_suggested_bid_witness :
  exists assertions chain chain_name storage bid,
    _process_content example_content JSON_LD = Ok assertions /\
    In (EvChainId (Ok chain)) (trace prompt_create.2) /\
    SUPPORTED_NETWORKS !! chain = Some chain_name /\
    In (EvGetAssetStorageAddress "ContentAssetStorage" (Ok storage))
      (trace prompt_create.2) /\
    In (EvBidSuggestion
          {| bs_blockchain := chain_name;
             bs_epochs_number := 2;
             bs_size := size (pub_metadata (a_public assertions));
             bs_contract := storage;
             bs_assertion_id := pub_id (a_public assertions);
             bs_hash_function_id := 1 |} (Ok bid))
      (trace prompt_create.2) /\
    100 = bidSuggestion bid.
Proof.
  apply (create_pays_the_suggested_bid prompt_world example_content 2 false
           JSON_LD 100).
  left. exists "0xAgreement", (Ok tt). vm_compute. auto 10.
Defined.

Lemma unprocessable_content_makes_no_request_witness :
  run (create empty_content 2 None false JSON_LD) prompt_world
    = (Raise (ContentError "no statements"),
       {| world := prompt_world; trace := [] |}) /\
  run (update "otp:0xStorage:7" empty_content None JSON_LD) prompt_world
    = (match parse_ual "otp:0xStorage:7" with
       | Ok _ => Raise (ContentError "no statements")
       | Raise malformed => Raise malformed
       end, {| world := prompt_world; trace := [] |}).
Proof.
  apply (unprocessable_content_makes_no_request prompt_world
           "otp:0xStorage:7" empty_content 2 None false JSON_LD).
  reflexivity.
Defined.

Lemma unknown_chain_stops_after_chain_id_witness :
  ((exists key,
      (run (create (provider := stray_provider) example_content 2 None false JSON_LD) prompt_world).1
      = Raise (KeyError key)) /\
   trace (run (create (provider := stray_provider) example_content 2 None false JSON_LD) prompt_world).2
   = [EvChainId (Ok 2043)]) /\
  ((exists key,
      (run (update (provider := stray_provider) "otp:0xStorage:7" example_content None JSON_LD)
         prompt_world).1
      = Raise (KeyError key)) /\
   trace (run (update (provider := stray_provider) "otp:0xStorage:7" example_content None JSON_LD)
            prompt_world).2
   = [EvChainId (Ok 2043)]).
Proof.
  split.
  - apply (unknown_chain_stops_after_chain_id (provider := stray_provider)
             prompt_world "otp:0xStorage:7" example_content 2 None false
             JSON_LD 2043).
    + reflexivity.
    + vm_compute. auto.
  - apply (unknown_chain_stops_after_chain_id (provider := stray_provider)
             prompt_world "otp:0xStorage:7" example_content 2 None false
             JSON_LD 2043).
    + reflexivity.
    + vm_compute. auto.
Defined.

Lemma create_keeps_allowance_after_mint_witness :
  Forall (fun ev => is_decrease ev = false) (trace prompt_create.2).
Proof.
  apply (create_keeps_allowance_after_mint prompt_world example_content 2
           None false JSON_LD example_mint JNull).
  vm_compute. auto 10.
Defined.

Lemma create_without_mint_event_witness :
  (run (create (provider := eventless_provider) example_content 2 None false
          JSON_LD) prompt_world).1 = Raise IndexError /\
  last (trace (run (create (provider := eventless_provider) example_content
                      2 None false JSON_LD) prompt_world).2)
  = Some (EvCreateAsset example_mint (Ok JNull)).
Proof.
  apply (create_without_mint_event (provider := eventless_provider)
           prompt_world example_content 2 None false JSON_LD example_mint
           JNull []).
  - vm_compute. auto 10.
  - reflexivity.
Defined.

Lemma create_publishes_what_it_minted_witness :
  exists assertions ca receipt events l stored,
    _process_content example_content JSON_LD = Ok assertions /\
    aa_assertion_id example_publish = pub_id (a_public assertions) /\
    aa_assertion example_publish = pub_content (a_public assertions) /\
    aa_hash_function_id example_publish = 1 /\
    In (EvCreateAsset ca (Ok receipt)) (trace prompt_create.2) /\
    ca_assertionId ca = Web3_to_bytes (aa_assertion_id example_publish) /\
    decode_logs_event receipt "ContentAsset" "AssetMinted" = Ok events /\
    minted_token_id events = Ok (aa_token_id example_publish) /\
    In (EvLocalStore l (Ok stored)) (trace prompt_create.2) /\
    Forall (fun entry =>
              se_blockchain entry = aa_blockchain example_publish /\
              se_contract entry = aa_contract example_publish /\
              se_tokenId entry = aa_token_id example_publish) l.
Proof.
  apply (create_publishes_what_it_minted prompt_world example_content 2 None
           false JSON_LD example_publish
           (Ok {| operationId := "op-publish" |})).
  vm_compute. auto 15.
Defined.

Lemma create_returns_the_published_asset_witness :
  exists pa published response,
    In (EvPublish pa (Ok published)) (trace prompt_create.2) /\
    last (trace prompt_create.2)
    = Some (EvGetOperationResult (operationId published) "publish"
              (Ok response)) /\
    {| r_UAL := "otp:0xStorage:7";
       r_publicAssertionId := "0x0:<@id> ex:1";
       r_operation := {| oi_operationId := "op-publish";
                         oi_status := Completed |} |} =
      {| r_UAL := format_ual (aa_blockchain pa) (aa_contract pa)
                    (aa_token_id pa);
         r_publicAssertionId := aa_assertion_id pa;
         r_operation := {| oi_operationId := operationId published;
                           oi_status := status response |} |}.
Proof.
  apply (create_returns_the_published_asset prompt_world example_content 2
           None false JSON_LD).
  vm_compute. reflexivity.
Defined.

Lemma update_works_on_the_parsed_locator_witness :
  (exists parsed assertions,
     parse_ual "otp:0xStorage:7" = Ok parsed /\
     _process_content example_content JSON_LD = Ok assertions /\
     ua_token_id example_update = token_id parsed /\
     ua_assertion_id example_update = pub_id (a_public assertions) /\
     ua_size example_update = size (pub_metadata (a_public assertions)) /\
     ua_triples_number example_update
       = triples_number (pub_metadata (a_public assertions)) /\
     ua_chunks_number example_update
       = chunks_number (pub_metadata (a_public assertions))) /\
  (exists parsed chain chain_name,
     parse_ual "otp:0xStorage:7" = Ok parsed /\
     In (EvChainId (Ok chain)) (trace prompt_update.2) /\
     SUPPORTED_NETWORKS !! chain = Some chain_name /\
     "otp:0xStorage:7"
       = format_ual chain_name (contract_address parsed) (token_id parsed)).
Proof.
  split.
  - apply (update_works_on_the_parsed_locator prompt_world "otp:0xStorage:7"
             example_content None JSON_LD)
      with (a := example_update) (o := Ok tt).
    vm_compute. auto 10.
  - apply (update_works_on_the_parsed_locator prompt_world "otp:0xStorage:7"
             example_content None JSON_LD)
      with (result :=
              {| r_UAL := "otp:0xStorage:7";
                 r_publicAssertionId := "0x0:<@id> ex:1";
                 r_operation := {| oi_operationId := "op-update";
                                   oi_status := Completed |} |}).
    vm_compute. reflexivity.
Defined.

Lemma update_reads_the_agreement_of_the_first_assertion_witness :
  exists parsed first_assertion_id,
    parse_ual "otp:0xStorage:7" = Ok parsed /\
    In (EvGetAssertionIdByIndex (token_id parsed) 0 (Ok first_assertion_id))
      (trace prompt_update.2) /\
    "agreement:0xStorage0xfirst"
      = generate_agreement_id (contract_address parsed) (token_id parsed)
          (generate_keyword (contract_address parsed) first_assertion_id).
Proof.
  apply (update_reads_the_agreement_of_the_first_assertion prompt_world
           "otp:0xStorage:7" example_content None JSON_LD
           "agreement:0xStorage0xfirst" (Ok quiet_agreement)).
  vm_compute. auto 10.
Defined.

Lemma update_with_zero_epoch_length_witness :
  Forall (fun e => is_bid_or_update_state e = false)
    (trace (run (update "otp:0xStorage:7" example_content None JSON_LD)
              timeless_world).2) /\
  (forall tag block,
     In (EvGetBlock tag (Ok block))
       (trace (run (update "otp:0xStorage:7" example_content None JSON_LD)
                 timeless_world).2) ->
     (run (update "otp:0xStorage:7" example_content None JSON_LD)
        timeless_world).1 = Raise ZeroDivisionError /\
     last (trace (run (update "otp:0xStorage:7" example_content None JSON_LD)
                    timeless_world).2)
     = Some (EvGetBlock tag (Ok block))).
Proof.
  apply (update_with_zero_epoch_length timeless_world "otp:0xStorage:7"
           example_content None JSON_LD "agreement:0xStorage0xfirst"
           (agreement timeless_world)).
  - vm_compute. auto 10.
  - reflexivity.
Defined.

Lemma update_with_no_escrowed_amount_witness :
  Forall (fun e => is_update_state e = false)
    (trace (run (update "otp:0xStorage:7" example_content None JSON_LD)
              unfunded_world).2) /\
  (forall suggestion bid,
     In (EvBidSuggestion suggestion (Ok bid))
       (trace (run (update "otp:0xStorage:7" example_content None JSON_LD)
                 unfunded_world).2) ->
     (run (update "otp:0xStorage:7" example_content None JSON_LD)
        unfunded_world).1 = Raise IndexError /\
     last (trace (run (update "otp:0xStorage:7" example_content None JSON_LD)
                    unfunded_world).2)
     = Some (EvBidSuggestion suggestion (Ok bid))).
Proof.
  apply (update_with_no_escrowed_amount unfunded_world "otp:0xStorage:7"
           example_content None JSON_LD "agreement:0xStorage0xfirst"
           (agreement unfunded_world)).
  - vm_compute. auto 10.
  - reflexivity.
Defined.

Lemma processed_assertions_are_content_addressed_witness :
  exists assertions,
    _process_content private_content JSON_LD = Ok assertions /\
    pub_id (a_public assertions)
      = merkle_root (pub_content (a_public assertions)) /\
    pub_metadata (a_public assertions)
      = generate_assertion_metadata (pub_content (a_public assertions)) /\
    match a_private assertions with
    | Some pr =>
        priv_id pr = merkle_root (priv_content pr) /\
        exists p, given (private private_content) = Some p /\
                  normalize_dataset p JSON_LD = Ok (priv_content pr)
    | None => given (private private_content) = None
    end.
Proof.
  eexists. split; [vm_compute; reflexivity|].
  apply (processed_assertions_are_content_addressed private_content JSON_LD).
  vm_compute. reflexivity.
Defined.

Lemma empty_parts_are_absent_parts_witness :
  run (create hollow_content 2 None false JSON_LD) prompt_world
    = run (create example_content 2 None false JSON_LD) prompt_world /\
  run (update "otp:0xStorage:7" hollow_content None JSON_LD) prompt_world
    = run (update "otp:0xStorage:7" example_content None JSON_LD)
        prompt_world.
Proof.
  apply (empty_parts_are_absent_parts prompt_world "otp:0xStorage:7"
           hollow_content example_content 2 None false JSON_LD);
    reflexivity.
Defined.

Lemma create_mints_the_processed_assertion_witness :
  exists spender assertions,
    In (EvGetContractAddress "ServiceAgreementV1" (Ok spender))
      (trace prompt_create.2) /\
    In (EvIncreaseAllowance spender (ca_tokenAmount example_mint) (Ok tt))
      (trace prompt_create.2) /\
    _process_content example_content JSON_LD = Ok assertions /\
    example_mint =
      {| ca_assertionId := Web3_to_bytes (pub_id (a_public assertions));
         ca_size := size (pub_metadata (a_public assertions));
         ca_triplesNumber :=
           triples_number (pub_metadata (a_public assertions));
         ca_chunksNumber :=
           chunks_number (pub_metadata (a_public assertions));
         ca_tokenAmount := ca_tokenAmount example_mint;
         ca_epochsNumber := 2;
         ca_scoreFunctionId := 1;
         ca_immutable_ := false |}.
Proof.
  apply (create_mints_the_processed_assertion prompt_world example_content 2
           None false JSON_LD example_mint (Ok JNull)).
  vm_compute. auto 10.
Defined.

Lemma update_announces_what_it_wrote_witness :
  exists assertions ua l stored,
    _process_content example_content JSON_LD = Ok assertions /\
    aa_assertion_id example_publish = pub_id (a_public assertions) /\
    aa_assertion example_publish = pub_content (a_public assertions) /\
    aa_hash_function_id example_publish = 1 /\
    In (EvUpdateAssetState ua (Ok tt)) (trace prompt_update.2) /\
    ua_token_id ua = aa_token_id example_publish /\
    ua_assertion_id ua = aa_assertion_id example_publish /\
    In (EvLocalStore l (Ok stored)) (trace prompt_update.2).
Proof.
  apply (update_announces_what_it_wrote prompt_world "otp:0xStorage:7"
           example_content None JSON_LD example_publish
           (Ok {| operationId := "op-update" |})).
  vm_compute. auto 15.
Defined.

Lemma update_returns_the_announced_asset_witness :
  exists pa announced response,
    In (EvUpdate pa (Ok announced)) (trace prompt_update.2) /\
    last (trace prompt_update.2)
    = Some (EvGetOperationResult (operationId announced) "update"
              (Ok response)) /\
    {| r_UAL := "otp:0xStorage:7";
       r_publicAssertionId := "0x0:<@id> ex:1";
       r_operation := {| oi_operationId := "op-update";
                         oi_status := Completed |} |} =
      {| r_UAL := format_ual (aa_blockchain pa) (aa_contract pa)
                    (aa_token_id pa);
         r_publicAssertionId := aa_assertion_id pa;
         r_operation := {| oi_operationId := operationId announced;
                           oi_status := status response |} |}.
Proof.
  apply (update_returns_the_announced_asset prompt_world "otp:0xStorage:7"
           example_content None JSON_LD).
  vm_compute. reflexivity.
Defined.
